(** * Analytics backend: upload, summary statistics and retention

    A shallow embedding of [backend/analytics/views.py] and
    [backend/analytics/models.py].  The views are modelled as functions on an
    explicit store (the [Dataset] table, its auto-increment counter and the
    media storage that holds the uploaded files); the two libraries the views
    call (pandas for the table, the Django ORM for the store) are modelled by
    the operations the views use, with the behaviour their documentation
    gives. *)

From Stdlib Require Import ZArith QArith Qcanon.
From stdpp Require Import base option list sorting strings gmap sets numbers.

Local Open Scope Z_scope.

(** ** Exceptions

    Python exceptions that the views raise, catch or let through, each with
    the text [str(e)] gives. *)

Inductive Exception :=
  | EmptyDataError (msg : string)
  | ParserError (msg : string)
  | KeyError (msg : string)
  | TypeError (msg : string)
  | DoesNotExist (msg : string)
  | MultipleObjectsReturned (msg : string)
  | FileNotFoundError (msg : string)
  | IntegrityError (msg : string)
  | SuspiciousFileOperation (msg : string)
  | OtherError (msg : string).

#[global] Instance Exception_eq_dec : EqDecision Exception.
Proof. solve_decision. Defined.

Definition str (e : Exception) : string :=
  match e with
  | EmptyDataError msg | ParserError msg | KeyError msg | TypeError msg
  | DoesNotExist msg | MultipleObjectsReturned msg | FileNotFoundError msg
  | IntegrityError msg | SuspiciousFileOperation msg | OtherError msg => msg
  end.

Inductive result (A : Type) :=
  | Ok (a : A)
  | Raise (e : Exception).
Arguments Ok {A} a.
Arguments Raise {A} e.

#[global] Instance result_eq_dec {A} `{EqDecision A} : EqDecision (result A).
Proof. solve_decision. Defined.

Definition rbind {A B} (r : result A) (k : A → result B) : result B :=
  match r with
  | Ok a => k a
  | Raise e => Raise e
  end.

Fixpoint rmapM {A B} (f : A → result B) (l : list A) : result (list B) :=
  match l with
  | [] => Ok []
  | x :: l' => rbind (f x) (λ y, rbind (rmapM f l') (λ ys, Ok (y :: ys)))
  end.

Definition bytes := list Byte.byte.

#[global] Instance byte_eq_dec : EqDecision Byte.byte := Byte.byte_eq_dec.

(** ** Constants of [views.py] *)

Definition REQUIRED_COLUMNS : gset string :=
  {[ "Equipment Name"; "Type"; "Flowrate"; "Pressure"; "Temperature" ]}%string.

(** The five required names, as a header line has them. *)
Definition header : list string :=
  ["Equipment Name"; "Type"; "Flowrate"; "Pressure"; "Temperature"]%string.

Definition MAX_DATASETS : nat := 5.

Definition numeric_columns : list string :=
  ["Flowrate"; "Pressure"; "Temperature"]%string.

Section Model.

(** ** The pandas table

    [float] stands for the float64 values of numeric cells, the infinities
    among them, and [mean64] for the arithmetic mean pandas computes over a
    non-empty list of them; both are left abstract. *)

Context {float : Type} `{Countable float}.
Variable mean64 : list float → float.

(** A cell after [read_csv]: a missing value, a number, or a text. *)
Inductive Cell :=
  | NaN
  | Num (x : float)
  | Str (s : string).

#[global] Instance Cell_eq_dec : EqDecision Cell.
Proof. solve_decision. Defined.

(** What the model leaves to the libraries and to the database:
    - [repr]: Python's [repr] of a string, as it appears in the text of a
      [KeyError] and of the error of [open];
    - [not_in_index_text]: the text of the [KeyError] for a selection by a
      list of labels, from the labels asked for and the columns there are;
    - [mean_error_text]: the text of the [TypeError] that [DataFrame.mean]
      raises for a frame with a text in it; pandas builds it from the values
      it could not add up, and it differs between versions of pandas;
    - [isfinite]: [math.isfinite], false for a NaN and for the infinities
      that a cell or a mean can be;
    - [integrity_error_text]: the text of the error the database raises for
      a row it refuses;
    - [storage_accepts]: whether the file storage can derive a storage name
      from the name of an upload (it keeps letters, digits, dashes,
      underscores and dots, and needs something to be left that fits the
      length of the field), and [file_name_error_text], the text of the
      error it raises when it cannot. *)
Class Libraries := {
  repr : string → string;
  not_in_index_text : list string → list string → string;
  mean_error_text : list (string * list Cell) → string;
  isfinite : float → bool;
  integrity_error_text : string;
  storage_accepts : string → bool;
  file_name_error_text : string → string
}.

Context `{!Libraries}.

(** [Series.count()]: the number of cells that are not missing. *)
Definition series_count (col : list Cell) : nat :=
  length (filter (λ c, c ≠ NaN) col).

(** A table: its column labels in file order and its data rows.  A row that
    is shorter than the header reads as [NaN] in the missing places. *)
Record DataFrame := mkDataFrame {
  columns : list string;
  rows : list (list Cell)
}.

(** [len(dataframe)] *)
Definition len (df : DataFrame) : nat := length (rows df).

(** [dataframe[label]]: the cells of one column; [KeyError] when the label
    is not a column, with the [repr] of the label as its text. *)
Definition getitem (df : DataFrame) (label : string) : result (list Cell) :=
  match list_find (λ c, c = label) (columns df) with
  | Some (i, _) => Ok ((λ r, default NaN (r !! i)) <$> rows df)
  | None => Raise (KeyError (repr label))
  end.

(** [dataframe[labels]] with a list of labels; [KeyError] when one of them
    is not a column, with a text that pandas builds from the labels it did
    not find. *)
Definition getitems (df : DataFrame) (labels : list string)
  : result (list (string * list Cell)) :=
  match rmapM (λ l, rbind (getitem df l) (λ col, Ok (l, col))) labels with
  | Ok cols => Ok cols
  | Raise _ => Raise (KeyError (not_in_index_text labels (columns df)))
  end.

(** The numbers of a column, the missing values skipped, and its texts. *)
Definition numbers (col : list Cell) : list float :=
  omap (λ c, match c with Num x => Some x | _ => None end) col.

Definition texts (col : list Cell) : list string :=
  omap (λ c, match c with Str s => Some s | _ => None end) col.

(** The mean of a column without text ([skipna=True]): the mean of its
    numbers, the missing cells left out; [None] stands for the NaN of an
    empty or all-missing column. *)
Definition series_mean (col : list Cell) : option float :=
  match numbers col with
  | [] => None
  | xs => Some (mean64 xs)
  end.

(** [DataFrame.mean().to_dict()] (pandas 2, [numeric_only=False]).  A frame
    with a text in one of its columns cannot be added up: the reduction
    raises [TypeError], whatever else the frame holds.  Otherwise every
    column gets its mean. *)
Definition mean_to_dict (cols : list (string * list Cell))
  : result (gmap string (option float)) :=
  if decide (Forall (λ lc, texts lc.2 = []) cols)
  then Ok (list_to_map ((λ lc, (lc.1, series_mean lc.2)) <$> cols))
  else Raise (TypeError (mean_error_text cols)).

(** The keys of a [value_counts] result. *)
Inductive Label :=
  | LNum (x : float)
  | LStr (s : string).

#[global] Instance Label_eq_dec : EqDecision Label.
Proof. solve_decision. Defined.

#[global] Instance Label_countable : Countable Label.
Proof.
  refine (inj_countable'
    (λ l, match l with LNum x => inl x | LStr s => inr s end)
    (λ s, match s with inl x => LNum x | inr s => LStr s end) _).
  by intros [].
Defined.

Definition label (c : Cell) : option Label :=
  match c with
  | NaN => None
  | Num x => Some (LNum x)
  | Str s => Some (LStr s)
  end.

(** [Series.value_counts().to_dict()]: occurrences of each value, the
    missing ones dropped ([dropna=True]). *)
Definition value_counts (col : list Cell) : gmap Label nat :=
  foldr (λ c counts,
           match label c with
           | Some k => <[k := S (default 0%nat (counts !! k))]> counts
           | None => counts
           end) ∅ col.

(** [sum(d.values())] *)
Definition sum_values {K} `{Countable K} (d : gmap K nat) : nat :=
  map_fold (λ _ n acc, (n + acc)%nat) 0%nat d.

(** The summary dict stored with a dataset. *)
Record Summary := mkSummary {
  total_count : nat;
  averages : gmap string (option float);
  type_distribution : gmap Label nat
}.

#[global] Instance Summary_eq_dec : EqDecision Summary.
Proof. solve_decision. Defined.

(** [UploadCSV._calculate_summary] *)
Definition _calculate_summary (dataframe : DataFrame) : result Summary :=
  let total_count := len dataframe in
  rbind (getitems dataframe numeric_columns) (λ numeric,
  rbind (mean_to_dict numeric) (λ averages,
  rbind (getitem dataframe "Type") (λ types,
  let type_distribution := value_counts types in
  Ok (mkSummary total_count averages type_distribution)))).

(** ** The [Dataset] model and its store

    A row of the [Dataset] table ([models.py]).  [file] is the storage name
    of the uploaded file ([None]: no file, the falsy [FieldFile]);
    [uploaded_at] is the clock reading [auto_now_add] took. *)

Record Dataset := mkDataset {
  pk : Z;
  file : option nat;
  uploaded_at : Z;
  summary : option Summary;
  original_filename : string;
  preview_html : string
}.

#[global] Instance Dataset_eq_dec : EqDecision Dataset.
Proof. solve_decision. Defined.

(** The store: the table's rows in the order the database scans them (rows
    are appended on insert), the last primary key handed out (keys are not
    used again), and the media storage, from storage names to file
    contents. *)
Record Store := mkStore {
  table : list Dataset;
  last_pk : Z;
  media : gmap nat bytes
}.

#[global] Instance Store_eq_dec : EqDecision Store.
Proof. solve_decision. Defined.

(** Code that reads or writes the store and may raise: the store is
    threaded through, and a raise keeps the writes done before it (the views
    run in autocommit). *)
Definition M (A : Type) : Type := Store → result A * Store.

Definition mret {A} (a : A) : M A := λ st, (Ok a, st).

Definition mraise {A} (e : Exception) : M A := λ st, (Raise e, st).

Definition mbind {A B} (m : M A) (k : A → M B) : M B :=
  λ st, match m st with
        | (Ok a, st') => k a st'
        | (Raise e, st') => (Raise e, st')
        end.

Definition lift {A} (r : result A) : M A := λ st, (r, st).

(** [try: body except Exception as e: handler e] *)
Definition try_except {A} (body : M A) (handler : Exception → M A) : M A :=
  λ st, match body st with
        | (Ok a, st') => (Ok a, st')
        | (Raise e, st') => handler e st'
        end.

Notation "'do' x <- m ; k" := (mbind m (λ x, k))
  (at level 10, x name, m at level 100, k at level 200).
Notation "'do_' m ; k" := (mbind m (λ _, k))
  (at level 10, m at level 100, k at level 200).

(** *** Query sets

    [order_by] is a stable insertion sort of the scanned rows: the queries
    of the views order by [uploaded_at] alone, so rows with the same upload
    time are left in their scan order. *)

Fixpoint insert_by (le : Dataset → Dataset → bool) (x : Dataset) (l : list Dataset)
  : list Dataset :=
  match l with
  | [] => [x]
  | y :: l' => if le x y then x :: l else y :: insert_by le x l'
  end.

Definition order_by (le : Dataset → Dataset → bool) (l : list Dataset) : list Dataset :=
  foldr (insert_by le) [] l.

(** ['uploaded_at'] and ['-uploaded_at'] *)
Definition by_uploaded_at (a b : Dataset) : bool :=
  bool_decide (uploaded_at a ≤ uploaded_at b).
Definition by_uploaded_at_desc (a b : Dataset) : bool :=
  bool_decide (uploaded_at b ≤ uploaded_at a).

Definition does_not_exist : Exception :=
  DoesNotExist "Dataset matching query does not exist.".

(** [Dataset.objects.count()] *)
Definition objects_count : M nat := λ st, (Ok (length (table st)), st).

(** [Dataset.objects.earliest('uploaded_at')] *)
Definition objects_earliest : M Dataset :=
  λ st, match order_by by_uploaded_at (table st) with
        | d :: _ => (Ok d, st)
        | [] => (Raise does_not_exist, st)
        end.

(** [Dataset.objects.latest('uploaded_at')] *)
Definition objects_latest : M Dataset :=
  λ st, match order_by by_uploaded_at_desc (table st) with
        | d :: _ => (Ok d, st)
        | [] => (Raise does_not_exist, st)
        end.

(** [Dataset.objects.all().order_by('-uploaded_at')], evaluated *)
Definition objects_all_order_by_desc : M (list Dataset) :=
  λ st, (Ok (order_by by_uploaded_at_desc (table st)), st).

(** [Dataset.objects.get(pk=pk)] *)
Definition objects_get (key : Z) : M Dataset :=
  λ st, match filter (λ d, pk d = key) (table st) with
        | [] => (Raise does_not_exist, st)
        | [d] => (Ok d, st)
        | _ => (Raise (MultipleObjectsReturned "get() returned more than one Dataset"), st)
        end.

(** An uploaded file of the request: its name and its content. *)
Record UploadedFile := mkUploadedFile {
  name : string;
  content : bytes
}.

(** The truth value of a file object is that of its name. *)
Definition file_bool (f : UploadedFile) : bool :=
  bool_decide (name f ≠ ""%string).

(** What the JSON field of the table accepts: a summary whose averages are
    all finite numbers.  The counts are integers and every key is written as
    a string, so they are always accepted; a NaN or an infinity among the
    averages is not JSON, and the database refuses the row. *)
Definition json_number (m : option float) : bool :=
  match m with
  | Some x => isfinite x
  | None => false
  end.

Definition json_valid (s : Summary) : bool :=
  bool_decide (map_Forall (λ _ m, json_number m = true) (averages s)).

(** [Dataset.objects.create(file=..., summary=..., original_filename=...)]:
    first the content is saved under a storage name that is not in use, then
    the row is inserted with the next primary key and the clock reading
    [now].  A file name the storage cannot take makes the saving raise
    [SuspiciousFileOperation], with nothing written.  A summary that is not
    [json_valid] makes the insertion raise [IntegrityError]: the insertion
    is undone, so no row is added and no key is used, and the file saved
    before stays in the storage.
    The storage and the database are taken to be in working order: nothing
    else fails. *)
Definition objects_create (now : Z) (csv_file : UploadedFile) (s : Summary)
    (filename : string) : M Dataset :=
  λ st,
    if storage_accepts (name csv_file) then
      let storage_name := fresh (dom (media st)) in
      let saved := <[storage_name := content csv_file]> (media st) in
      if json_valid s then
        let dataset :=
          mkDataset (last_pk st + 1) (Some storage_name) now (Some s) filename "" in
        (Ok dataset, mkStore (table st ++ [dataset]) (last_pk st + 1) saved)
      else
        (Raise (IntegrityError integrity_error_text),
         mkStore (table st) (last_pk st) saved)
    else
      (Raise (SuspiciousFileOperation (file_name_error_text (name csv_file))), st).

(** [dataset.file.delete(save=False)]: the file is removed from the storage,
    the row is not written. *)
Definition file_delete (d : Dataset) : M unit :=
  λ st, match file d with
        | Some storage_name =>
            (Ok (), mkStore (table st) (last_pk st) (delete storage_name (media st)))
        | None => (Ok (), st)
        end.

(** [dataset.delete()]: the row with the dataset's primary key goes. *)
Definition model_delete (d : Dataset) : M unit :=
  λ st, (Ok (), mkStore (filter (λ r, pk r ≠ pk d) (table st)) (last_pk st) (media st)).

(** ** The views *)

(** What a view puts in its response. *)
Inductive Body :=
  | ErrorBody (error : string)
  | MissingColumnsBody (error : string) (required found : list string)
  | DatasetBody (d : Dataset)
  | HistoryBody (ds : list Dataset)
  | LatestBody (s : option Summary) (at_ : Z) (filename : string)
  | FileBody (payload : bytes) (filename : string).

Record Response := mkResponse {
  data : Body;
  status : nat
}.

#[global] Instance Body_eq_dec : EqDecision Body.
Proof. solve_decision. Defined.

#[global] Instance Response_eq_dec : EqDecision Response.
Proof. solve_decision. Defined.

(** A request whose body the parsers of the view (multipart and form data)
    have read: its uploaded files by field name. *)
Record Request := mkRequest {
  FILES : gmap string UploadedFile
}.

(** The parser of the uploaded bytes, [pd.read_csv]. *)
Variable read_csv : bytes → result DataFrame.

(** The [while] of [UploadCSV._cleanup_old_datasets], unrolled at most
    [fuel] times. *)
Fixpoint cleanup_loop (fuel : nat) : M unit :=
  match fuel with
  | O => mret ()
  | S fuel' =>
      do n <- objects_count;
      if decide (MAX_DATASETS < n)%nat then
        do oldest <- objects_earliest;
        do_ (if file oldest is Some _ then file_delete oldest else mret ());
        do_ model_delete oldest;
        cleanup_loop fuel'
      else mret ()
  end.

(** The store after one turn of the loop: the file and the row of [oldest]
    are gone. *)
Definition evict (oldest : Dataset) (st : Store) : Store :=
  mkStore (filter (λ r, pk r ≠ pk oldest) (table st)) (last_pk st)
    (match file oldest with
     | Some storage_name => delete storage_name (media st)
     | None => media st
     end).

(** [UploadCSV._cleanup_old_datasets]: every turn of the loop removes a row,
    so as many turns as there are rows are enough. *)
Definition _cleanup_old_datasets : M unit :=
  λ st, cleanup_loop (length (table st)) st.

(** The [except] clauses of [UploadCSV.post]. *)
Definition post_except (e : Exception) : M Response :=
  match e with
  | EmptyDataError _ => mret (mkResponse (ErrorBody "CSV file is empty") 400)
  | ParserError _ =>
      mret (mkResponse (ErrorBody ("Invalid CSV format: " +:+ str e)) 400)
  | _ => mret (mkResponse (ErrorBody ("Processing error: " +:+ str e)) 500)
  end.

(** [UploadCSV.post], at clock reading [now]. *)
Definition UploadCSV_post (now : Z) (request : Request) : M Response :=
  let csv_file := FILES request !! "file"%string in
  match csv_file with
  | Some csv_file =>
    if file_bool csv_file then
      try_except
        (do dataframe <- lift (read_csv (content csv_file));
         if decide (REQUIRED_COLUMNS ⊆ list_to_set (columns dataframe)) then
           do s <- lift (_calculate_summary dataframe);
           do dataset <- objects_create now csv_file s (name csv_file);
           do_ _cleanup_old_datasets;
           mret (mkResponse (DatasetBody dataset) 201)
         else
           mret (mkResponse
                   (MissingColumnsBody "CSV missing required columns"
                      (elements REQUIRED_COLUMNS) (columns dataframe)) 400))
        post_except
    else mret (mkResponse (ErrorBody "No file provided") 400)
  | None => mret (mkResponse (ErrorBody "No file provided") 400)
  end.

(** [HistoryList.get] *)
Definition HistoryList_get : M Response :=
  do datasets <- objects_all_order_by_desc;
  mret (mkResponse (HistoryBody datasets) 200).

(** [dataset.file.open()] *)
Definition file_open (d : Dataset) : M bytes :=
  λ st, match file d ≫= (λ storage_name, media st !! storage_name) with
        | Some payload => (Ok payload, st)
        | None => (Raise (FileNotFoundError "No such file or directory"), st)
        end.

(** [DatasetDownload.get]; only [DoesNotExist] is caught. *)
Definition DatasetDownload_get (key : Z) : M Response :=
  try_except
    (do dataset <- objects_get key;
     if file dataset is Some _ then
       let filename :=
         if decide (original_filename dataset = ""%string) then "dataset.csv"%string
         else original_filename dataset in
       do payload <- file_open dataset;
       mret (mkResponse (FileBody payload filename) 200)
     else mret (mkResponse (ErrorBody "File not found for this dataset") 404))
    (λ e,
       match e with
       | DoesNotExist _ => mret (mkResponse (ErrorBody "Dataset not found") 404)
       | _ => mraise e
       end).

(** [LatestSummary.get] *)
Definition LatestSummary_get : M Response :=
  try_except
    (do latest_dataset <- objects_latest;
     mret (mkResponse
             (LatestBody (summary latest_dataset) (uploaded_at latest_dataset)
                (original_filename latest_dataset)) 200))
    (λ e,
       match e with
       | DoesNotExist _ => mret (mkResponse (ErrorBody "No datasets found") 404)
       | _ => mraise e
       end).

(** A run of uploads, each at its clock reading: the responses, and the
    store after each of them. *)
Fixpoint uploads (calls : list (Z * Request)) (st : Store)
  : list (result Response * Store) :=
  match calls with
  | [] => []
  | (now, request) :: calls' =>
      let r := UploadCSV_post now request st in
      r :: uploads calls' r.2
  end.

(** ** The desktop client

    [frontend-desktop/api.py] and the handlers of [frontend-desktop/main.py].
    A request of the client goes to the view that [urls.py] routes its path
    to; the server is taken to be reachable.  Of a widget the model keeps
    what the handlers set: the message and its style, whether the upload
    button is enabled, what the statistics label and the chart show, and the
    rows of the history table. *)

(** What [raise_for_status] and [open] raise in the client.  An exception
    that leaves a view reaches the client as a response with status 500 that
    is not JSON. *)
Inductive ClientError :=
  | HTTPError (response : Response)
  | HTTPErrorPage (e : Exception)
  | OSError (msg : string).

(** [str(e)] of an [HTTPError] with the given status, the text of the error
    page the server sends for an exception, and the text of a response; all
    three are the libraries'. *)
Variable http_error_str : nat → string.
Variable error_page : Exception → string.
Variable response_text : Response → string.

(** [os.path.basename] *)
Variable basename : string → string.

(** The file name the view receives for a file that the client posts under
    the given name.  The multipart encoding of the client and the multipart
    parser of the server both rewrite the name (the parser decodes HTML
    entities, cuts the name at path separators and drops the characters that
    are not printable); [None] when what is left is no file name, in which
    case the parser drops the file from [request.FILES]. *)
Variable received_name : string → option string.

(** [request.FILES] at the view for the file [f] posted as ['file'] under
    the name [filename]. *)
Definition posted (filename : string) (f : bytes) : Request :=
  mkRequest (match received_name filename with
             | Some received => {[ "file"%string := mkUploadedFile received f ]}
             | None => ∅
             end).

Definition client_str (e : ClientError) : string :=
  match e with
  | HTTPError response => http_error_str (status response)
  | HTTPErrorPage _ => http_error_str 500
  | OSError msg => msg
  end.

(** [resp.raise_for_status(); return resp.json()] *)
Definition raise_for_status (reply : result Response * Store)
  : (ClientError + Body) * Store :=
  match reply with
  | (Ok response, st) =>
      if decide (400 ≤ status response < 600)%nat
      then (inl (HTTPError response), st)
      else (inr (data response), st)
  | (Raise e, st) => (inl (HTTPErrorPage e), st)
  end.

(** [api.upload_csv], with the files of the client's disk and the clock
    reading of the server.  A path that is not on the disk makes [open]
    raise, with the [repr] of the path in the text. *)
Definition upload_csv (disk : gmap string bytes) (now : Z) (filepath : string) (st : Store)
  : (ClientError + Body) * Store :=
  let filename := basename filepath in
  match disk !! filepath with
  | Some f => raise_for_status (UploadCSV_post now (posted filename f) st)
  | None =>
      (inl (OSError ("[Errno 2] No such file or directory: " +:+ repr filepath)), st)
  end.

(** [api.get_latest_summary] *)
Definition get_latest_summary (st : Store) : (ClientError + Body) * Store :=
  raise_for_status (LatestSummary_get st).

(** [api.get_history] *)
Definition get_history (st : Store) : (ClientError + Body) * Store :=
  raise_for_status (HistoryList_get st).

(** What the statistics label shows: a plain text, or the summary text built
    from the file name, the upload date, the record count and the three
    averages (an absent average is shown as 0).  The averages are kept as
    the summary has them; how Python prints them to two decimals is not
    modelled. *)
Inductive StatsLabel :=
  | StatsText (text : string)
  | StatsSummary (filename : string) (uploaded : Z) (records : nat)
      (flowrate pressure temperature : option (option float)).

(** What the chart shows: the 'No data to display' text, or one bar per key
    of the distribution, as high as the key's count. *)
Inductive Chart :=
  | NoDataChart
  | BarChart (bars : gmap Label nat).

(** The window. A row of the history table has the file name, the upload
    date and the record count. *)
Record App := mkApp {
  msg : string;
  msg_style : string;
  upload_btn_enabled : bool;
  stats_label : StatsLabel;
  chart : Chart;
  history_table : list (string * Z * nat)
}.

Definition set_msg (text style : string) (app : App) : App :=
  mkApp text style (upload_btn_enabled app) (stats_label app) (chart app)
    (history_table app).

Definition set_upload_btn (enabled : bool) (app : App) : App :=
  mkApp (msg app) (msg_style app) enabled (stats_label app) (chart app)
    (history_table app).

Definition set_stats (label : StatsLabel) (app : App) : App :=
  mkApp (msg app) (msg_style app) (upload_btn_enabled app) label (chart app)
    (history_table app).

Definition set_chart (c : Chart) (app : App) : App :=
  mkApp (msg app) (msg_style app) (upload_btn_enabled app) (stats_label app) c
    (history_table app).

Definition set_history (rows : list (string * Z * nat)) (app : App) : App :=
  mkApp (msg app) (msg_style app) (upload_btn_enabled app) (stats_label app)
    (chart app) rows.

(** The window as [initUI] leaves it. *)
Definition initUI : App :=
  mkApp "Ready to upload CSV files" "padding: 5px; color: #666;" true
    (StatsText "No data available") NoDataChart [].

Definition attribute_error : Exception :=
  OtherError "object has no attribute 'get'".

(** [App.update_summary]; a body that is a list or a file has no [get]. *)
Definition update_summary (summary_data : Body) (app : App) : result App :=
  let show (s : option Summary) (uploaded : Z) (filename : string) :=
    match s with
    | Some s =>
        let app := set_stats
                     (StatsSummary filename uploaded (total_count s)
                        (averages s !! "Flowrate"%string)
                        (averages s !! "Pressure"%string)
                        (averages s !! "Temperature"%string)) app in
        let type_dist := type_distribution s in
        if decide (type_dist = ∅) then set_chart NoDataChart app
        else set_chart (BarChart type_dist) app
    | None =>
        set_chart NoDataChart (set_stats (StatsText "No summary data available") app)
    end in
  match summary_data with
  | LatestBody s uploaded filename => Ok (show s uploaded filename)
  | DatasetBody d => Ok (show (summary d) (uploaded_at d) (original_filename d))
  | ErrorBody _ | MissingColumnsBody _ _ _ =>
      Ok (set_chart NoDataChart (set_stats (StatsText "No summary data available") app))
  | HistoryBody _ | FileBody _ _ => Raise attribute_error
  end.

(** The row [update_history] fills in for an item: file name, upload date,
    and the record count of its summary (0 without a summary). *)
Definition history_row (item : Dataset) : string * Z * nat :=
  (original_filename item, uploaded_at item,
   match summary item with
   | Some s => total_count s
   | None => 0%nat
   end).

(** [App.update_history]: one row per item, in the order of the list.  A
    body that is not a list never comes from the history view; for it the
    model raises where the lookup on an item would, and leaves the table as
    it was. *)
Definition update_history (history_data : Body) (app : App) : result App :=
  match history_data with
  | HistoryBody items => Ok (set_history (history_row <$> items) app)
  | _ => Raise attribute_error
  end.

(** [App.refresh_data] *)
Definition refresh_data (app : App) (st : Store) : App * Store :=
  let on_request_error (e : ClientError) (app : App) : App :=
    match e with
    | HTTPError response =>
        if decide (status response = 404%nat) then
          set_history []
            (set_chart NoDataChart
               (set_stats
                  (StatsText "No data available. Upload a CSV file to get started.") app))
        else set_msg ("Error refreshing: " +:+ client_str e)
               "padding: 5px; color: #f44336;" app
    | HTTPErrorPage _ =>
        set_msg ("Error refreshing: " +:+ client_str e) "padding: 5px; color: #f44336;" app
    | OSError _ =>
        set_msg ("Error: " +:+ client_str e) "padding: 5px; color: #f44336;" app
    end in
  let on_exception (e : Exception) (app : App) : App :=
    set_msg ("Error: " +:+ str e) "padding: 5px; color: #f44336;" app in
  match get_latest_summary st with
  | (inl e, st) => (on_request_error e app, st)
  | (inr summary_data, st) =>
      match update_summary summary_data app with
      | Raise e => (on_exception e app, st)
      | Ok app =>
          match get_history st with
          | (inl e, st) => (on_request_error e app, st)
          | (inr history_data, st) =>
              match update_history history_data app with
              | Raise e => (on_exception e app, st)
              | Ok app => (app, st)
              end
          end
      end
  end.

(** [res.get("original_filename", "file")] *)
Definition get_original_filename (res : Body) : result string :=
  match res with
  | DatasetBody d => Ok (original_filename d)
  | LatestBody _ _ filename => Ok filename
  | ErrorBody _ | MissingColumnsBody _ _ _ => Ok "file"%string
  | HistoryBody _ | FileBody _ _ => Raise attribute_error
  end.

(** The text [App.upload] shows for an [HTTPError]: the ['error'] entry of
    the response's JSON, [str(e)] when the JSON is a dict without that
    entry, and the response's text (or [str(e)] when it is empty) when the
    body is not a dict. *)
Definition error_msg_of (response : Response) : string :=
  match data response with
  | ErrorBody error | MissingColumnsBody error _ _ => error
  | DatasetBody _ | LatestBody _ _ _ => http_error_str (status response)
  | HistoryBody _ | FileBody _ _ =>
      if decide (response_text response = ""%string)
      then http_error_str (status response)
      else response_text response
  end.

(** [App.upload], with the path the file dialog returned (empty when the
    dialog is cancelled). *)
Definition upload (disk : gmap string bytes) (now : Z) (path : string)
    (app : App) (st : Store) : App * Store :=
  if decide (path = ""%string) then (app, st)
  else
    let app := set_msg "Uploading..." "padding: 5px; color: #2196F3;" app in
    let app := set_upload_btn false app in
    let failed (text : string) (app : App) : App :=
      set_msg ("✗ Error: " +:+ text)
        "padding: 5px; color: #f44336; font-weight: bold;" app in
    let '(app, st) :=
      match upload_csv disk now path st with
      | (inr res, st) =>
          match get_original_filename res with
          | Ok filename =>
              let app := set_msg ("✓ Uploaded successfully: " +:+ filename)
                           "padding: 5px; color: #4CAF50; font-weight: bold;" app in
              refresh_data app st
          | Raise e => (failed (str e) app, st)
          end
      | (inl (HTTPError response), st) => (failed (error_msg_of response) app, st)
      | (inl (HTTPErrorPage e), st) =>
          (failed (if decide (error_page e = ""%string) then http_error_str 500
                   else error_page e) app, st)
      | (inl (OSError text), st) => (failed text app, st)
      end in
    (set_upload_btn true app, st).

(** [App.__init__] *)
Definition App_init (st : Store) : App * Store := refresh_data initUI st.

(** ** Descriptions used to state what the code does *)

(** The number of cells of a column that hold the value [k]. *)
Definition occurrences (k : Label) (col : list Cell) : nat :=
  length (filter (λ c, label c = Some k) col).

(** A store as the uploads build it: primary keys are distinct and not above
    the last one handed out, the rows' files are distinct, and the storage
    holds the files of the rows and no other. *)
Definition store_ok (st : Store) : Prop :=
  NoDup (pk <$> table st)
  ∧ Forall (λ d, pk d ≤ last_pk st) (table st)
  ∧ NoDup (omap file (table st))
  ∧ dom (media st) = list_to_set (omap file (table st)).

#[global] Instance store_ok_dec (st : Store) : Decision (store_ok st).
Proof. unfold store_ok. apply _. Defined.

(** A store as any run of uploads leaves it: as [store_ok], except that the
    storage may hold more than the files of the rows (an upload whose row the
    database refused has left its file there). *)
Definition store_sound (st : Store) : Prop :=
  NoDup (pk <$> table st)
  ∧ Forall (λ d, pk d ≤ last_pk st) (table st)
  ∧ NoDup (omap file (table st))
  ∧ list_to_set (omap file (table st)) ⊆ dom (media st).

#[global] Instance store_sound_dec (st : Store) : Decision (store_sound st).
Proof. unfold store_sound. apply _. Defined.

(** ** Reading a response the way the specification words it *)

(** The texts a response body carries. *)
Definition body_texts (b : Body) : list string :=
  match b with
  | ErrorBody error => [error]
  | MissingColumnsBody error required found => error :: required ++ found
  | _ => []
  end.

(** [needle in text] *)
Fixpoint occurs (needle text : string) : bool :=
  String.prefix needle text ||
  match text with
  | String _ text' => occurs needle text'
  | EmptyString => false
  end.

(** A response reports a name when the name occurs in one of its texts. *)
Definition reports (r : Response) (what : string) : bool :=
  existsb (occurs what) (body_texts (data r)).

(** The order the specification gives for a listing: most recent first, and
    among equal upload times the higher key first. *)
Definition recent_then_key_first (a b : Dataset) : Prop :=
  uploaded_at b < uploaded_at a ∨ (uploaded_at b = uploaded_at a ∧ pk b < pk a).

(** The response of a failed schema check. *)
Definition is_schema_error (r : result Response) : Prop :=
  match r with
  | Ok response =>
      match data response with
      | MissingColumnsBody _ _ _ => True
      | _ => False
      end
  | Raise _ => False
  end.

End Model.

Arguments NaN {float}.
Arguments Str {float} s.

(** ** Concrete inputs

    Exact rationals stand for the floats, with their exact mean. *)

Definition mean_Qc (xs : list Qc) : Qc :=
  (foldr Qcplus (Q2Qc 0) xs / Q2Qc (inject_Z (Z.of_nat (length xs))))%Qc.

Definition num (z : Z) : Cell (float := Qc) := Num (Q2Qc (inject_Z z)).

(** The libraries, for the inputs used below.  Every rational is finite.
    [repr] of a name without quotes, backslashes or control characters is
    the name in single quotes; the text of the [KeyError] for a list of
    labels names the missing ones; the text of the [TypeError] is the one of
    pandas 2 for a frame whose texts are in one column with no missing cell
    beside them; the text of the [IntegrityError] is one that SQLite gives;
    the storage takes every file name used below. *)
Definition repr_plain (s : string) : string := "'" +:+ s +:+ "'".

Definition could_not_convert (cols : list (string * list (Cell (float := Qc)))) : string :=
  match filter (λ ts, ts ≠ []) ((λ lc, texts lc.2) <$> cols) with
  | ts :: _ => "Could not convert ['" +:+ String.concat "" ts +:+ "'] to numeric"
  | [] => ""
  end.

#[global] Instance Qc_libraries : Libraries (float := Qc) :=
  {| repr := repr_plain;
     not_in_index_text := λ labels cols,
       "[" +:+ String.concat ", " (repr_plain <$> filter (λ l, l ∉ cols) labels)
       +:+ "] not in index";
     mean_error_text := could_not_convert;
     isfinite := λ _, true;
     integrity_error_text := "CHECK constraint failed: analytics_dataset";
     storage_accepts := λ _, true;
     file_name_error_text := λ name, "Could not derive file name from " +:+ repr_plain name |}.

(** The two-row table of the specification's example. *)
Definition pump_valve : DataFrame (float := Qc) :=
  mkDataFrame header
    [ [Str "P-1"; Str "Pump"; num 10; num 5; num 20];
      [Str "V-1"; Str "Valve"; num 20; num 15; num 30] ].

(** A row whose [Type] cell is empty in the file. *)
Definition missing_type : DataFrame (float := Qc) :=
  mkDataFrame header
    [ [Str "P-1"; Str "Pump"; num 10; num 5; num 20];
      [Str "V-1"; NaN; num 20; num 15; num 30] ].

(** A [Flowrate] cell that is not a number, in the second row. *)
Definition text_flowrate : DataFrame (float := Qc) :=
  mkDataFrame header
    [ [Str "P-1"; Str "Pump"; Str "55"; num 5; num 20];
      [Str "V-1"; Str "Valve"; Str "abc"; num 15; num 30] ].

(** A header line and no data rows. *)
Definition header_only : DataFrame (float := Qc) := mkDataFrame header [].

(** The [Type] column spelled in lower case. *)
Definition lowercase_type : DataFrame (float := Qc) :=
  mkDataFrame ["Equipment Name"; "type"; "Flowrate"; "Pressure"; "Temperature"]%string [].

(** A parser that reads every payload as the given table. *)
Definition parsed_as (df : DataFrame (float := Qc)) : bytes → result DataFrame :=
  λ _, Ok df.

(** The bytes of the uploads below (the parser above does not look at
    them). *)
Definition payload : bytes :=
  String.list_byte_of_string "Equipment Name,Type,Flowrate,Pressure,Temperature".

Definition upload_of (filename : string) : Request :=
  mkRequest {[ "file"%string := mkUploadedFile filename payload ]}.

Definition no_upload : Request := mkRequest ∅.

Definition empty_store : Store (float := Qc) := mkStore [] 0 ∅.

(** The empty store after an upload whose row the database refused: the
    file saved for it is in the storage, under the first storage name. *)
Definition store_with_orphan : Store (float := Qc) :=
  mkStore [] 0 {[ 0%nat := payload ]}.

(** The store after a run of uploads of the example table into the empty
    store. *)
Definition after_uploads (calls : list (Z * Request)) : Store (float := Qc) :=
  match reverse (uploads mean_Qc (parsed_as pump_valve) calls empty_store) with
  | r :: _ => r.2
  | [] => empty_store
  end.

(** The summary the aggregator returns for a table (an empty one if it
    raises). *)
Definition summary_of (df : DataFrame (float := Qc)) : Summary (float := Qc) :=
  match _calculate_summary mean_Qc df with
  | Ok s => s
  | Raise _ => mkSummary 0 ∅ ∅
  end.

(** The dataset an upload of the example table creates when it gets the
    primary key [key] (its file is stored under the name [key - 1] in the
    runs below). *)
Definition uploaded (key now : Z) (filename : string) : Dataset (float := Qc) :=
  mkDataset key (Some (Z.to_nat (key - 1))) now (Some (summary_of pump_valve)) filename "".

(** The store that holds the given datasets and their files. *)
Definition store_of (ds : list (Dataset (float := Qc))) (last : Z) : Store :=
  mkStore ds last
    (list_to_map (omap (λ d, (λ storage_name, (storage_name, payload)) <$> file d) ds)).

(** The store with the uploads number [first] to [last] of a run at clock
    readings 1, 2, ... *)
Definition store_after (first last : Z) : Store (float := Qc) :=
  store_of ((λ i, uploaded i i "data.csv") <$> seqZ first (last - first + 1)) last.

(** Two uploads at the same clock reading. *)
Definition same_time_calls : list (Z * Request) :=
  [(7, upload_of "a.csv"); (7, upload_of "b.csv")].

(** Seven uploads at clock readings 1 to 7. *)
Definition seven_calls : list (Z * Request) :=
  (λ t, (t, upload_of "data.csv")) <$> [1; 2; 3; 4; 5; 6; 7].

(** A store with seven rows, none with a file. *)
Definition seven_rows : Store (float := Qc) :=
  mkStore ((λ i, mkDataset i None i None "" "") <$> [1; 2; 3; 4; 5; 6; 7]) 7 ∅.

(** The example table with its two rows in the other order. *)
Definition valve_pump : DataFrame (float := Qc) :=
  mkDataFrame header
    [ [Str "V-1"; Str "Valve"; num 20; num 15; num 30];
      [Str "P-1"; Str "Pump"; num 10; num 5; num 20] ].



(** A parser that raises on every payload. *)
Definition raising (e : Exception) : bytes → result (DataFrame (float := Qc)) :=
  λ _, Raise e.

(** What the retention pass leaves of [seven_rows]. *)
Definition five_rows : Store (float := Qc) :=
  mkStore ((λ i, mkDataset i None i None "" "") <$> [3; 4; 5; 6; 7]) 7 ∅.


(** The client's side: [os.path.basename] of a POSIX path, fixed texts for
    what the HTTP library prints, a file on the client's disk, and the
    window as it is first laid out. *)
Fixpoint posix_basename (path : string) : string :=
  match path with
  | EmptyString => EmptyString
  | String c rest =>
      if occurs "/" rest then posix_basename rest
      else if String.prefix "/" path then rest else path
  end.

Definition http_error_text (status : nat) : string :=
  if decide (status < 500)%nat then "Client Error" else "Server Error".

Definition error_page_text (e : Exception) : string := str e.

Definition response_text_of (response : Response (float := Qc)) : string := "".

(** The file name the view receives for a name of printable characters
    without HTML entities: the part after the last slash, unless it is
    empty or a dot name. *)
Definition received_plain (filename : string) : option string :=
  let received := posix_basename filename in
  if decide (received ∈ [""; "."; ".."]%string) then None else Some received.

Definition csv_path : string := "/home/user/data.csv".

Definition client_disk : gmap string bytes := {[ csv_path := payload ]}.

Definition window : App (float := Qc) := initUI.


(** * Properties *)

Section Properties.

Context {float : Type} `{Countable float} `{!Libraries (float := float)}.
Variable mean64 : list float → float.
Variable read_csv : bytes → result (DataFrame (float := float)).

Implicit Types (st : Store (float := float)) (d : Dataset (float := float)).
Implicit Types (df : DataFrame (float := float)) (col : list (Cell (float := float))).
Implicit Types (l : list (Dataset (float := float))).
Implicit Types (le : Dataset (float := float) → Dataset (float := float) → bool).

(** ** Dictionaries of counts *)

Lemma sum_values_empty {K} `{Countable K} : sum_values (∅ : gmap K nat) = 0%nat.
Proof. unfold sum_values. by rewrite map_fold_empty. Qed.

Lemma sum_values_insert_fresh {K} `{Countable K} (m : gmap K nat) k n :
  m !! k = None → sum_values (<[k := n]> m) = (n + sum_values m)%nat.
Proof.
  intros Hk. unfold sum_values.
  rewrite map_fold_insert_L; [done | | done].
  intros; lia.
Qed.

Lemma sum_values_lookup {K} `{Countable K} (m : gmap K nat) k n :
  m !! k = Some n → sum_values m = (n + sum_values (delete k m))%nat.
Proof.
  intros Hk. rewrite <- (insert_delete_id m k n Hk) at 1.
  apply sum_values_insert_fresh, lookup_delete_eq.
Qed.

Lemma sum_values_bump {K} `{Countable K} (m : gmap K nat) k :
  sum_values (<[k := S (default 0%nat (m !! k))]> m) = S (sum_values m).
Proof.
  destruct (m !! k) as [n|] eqn:Hk; simpl.
  - rewrite <- insert_delete_eq.
    rewrite sum_values_insert_fresh by apply lookup_delete_eq.
    rewrite (sum_values_lookup m k n Hk). lia.
  - by rewrite sum_values_insert_fresh.
Qed.

(** The counts of [value_counts] add up to the number of cells that are not
    missing. *)
Lemma sum_value_counts col :
  sum_values (value_counts col) = series_count col.
Proof.
  unfold series_count.
  induction col as [|c col IH]; simpl.
  - apply sum_values_empty.
  - rewrite filter_cons. destruct c; simpl label; cbv iota.
    + case_decide; [congruence | done].
    + rewrite sum_values_bump, IH. case_decide; [done | congruence].
    + rewrite sum_values_bump, IH. case_decide; [done | congruence].
Qed.

Lemma series_count_no_missing col :
  NaN ∉ col → series_count col = length col.
Proof.
  intros Hna. unfold series_count. f_equal.
  induction col as [|c col IH]; [done|].
  rewrite filter_cons. rewrite decide_True.
  - f_equal. apply IH. intros ?. apply Hna. by right.
  - intros ->. apply Hna. by left.
Qed.

(** ** Ordering of query sets *)

Lemma insert_by_perm le d l : insert_by le d l ≡ₚ d :: l.
Proof.
  induction l as [|y l IH]; simpl; [done|].
  destruct (le d y); [done|].
  rewrite IH. apply Permutation_swap.
Qed.

Lemma order_by_perm le l : order_by le l ≡ₚ l.
Proof.
  induction l as [|x l IH]; simpl; [done|].
  rewrite insert_by_perm. by f_equiv.
Qed.

Lemma order_by_length le l : length (order_by le l) = length l.
Proof. by rewrite order_by_perm. Qed.

Lemma order_by_nil le l : order_by le l = [] ↔ l = [].
Proof.
  split; [|by intros ->].
  intros Hnil. apply length_zero_iff_nil.
  rewrite <- (order_by_length le), Hnil. done.
Qed.


Lemma StronglySorted_weaken {A} (R R' : A → A → Prop) (xs : list A) :
  (∀ a b, R a b → R' a b) → StronglySorted R xs → StronglySorted R' xs.
Proof.
  intros HR. induction 1 as [|x xs Hxs IH Hx]; constructor; [done|].
  revert Hx. apply List.Forall_impl. auto.
Qed.

Lemma insert_by_sorted le d l :
  (∀ a b, le a b = false → le b a = true) →
  (∀ a b c, le a b = true → le b c = true → le a c = true) →
  StronglySorted (λ a b, le a b = true) l →
  StronglySorted (λ a b, le a b = true) (insert_by le d l).
Proof.
  intros Htotal Htrans Hl.
  induction Hl as [|y l Hl IH Hy]; simpl.
  - by repeat constructor.
  - destruct (le d y) eqn:Hdy.
    + constructor; [by constructor|].
      constructor; [done|].
      revert Hy. apply List.Forall_impl. intros z Hz. by eapply Htrans.
    + constructor; [done|].
      rewrite insert_by_perm. constructor; [by apply Htotal | done].
Qed.

Lemma order_by_sorted le l :
  (∀ a b, le a b = false → le b a = true) →
  (∀ a b c, le a b = true → le b c = true → le a c = true) →
  StronglySorted (λ a b, le a b = true) (order_by le l).
Proof.
  intros Htotal Htrans.
  induction l as [|x l IH]; simpl; [constructor|].
  by apply insert_by_sorted.
Qed.

(** The result of [order_by('-uploaded_at')] is in descending order of
    upload time. *)
Lemma order_by_desc_sorted l :
  StronglySorted (λ a b, uploaded_at b ≤ uploaded_at a)
    (order_by by_uploaded_at_desc l).
Proof.
  eapply StronglySorted_weaken; [|apply (order_by_sorted by_uploaded_at_desc)].
  - intros a b Hab. unfold by_uploaded_at_desc in Hab.
    by apply bool_decide_eq_true in Hab.
  - unfold by_uploaded_at_desc. intros a b Hab.
    apply bool_decide_eq_false in Hab. apply bool_decide_eq_true. lia.
  - unfold by_uploaded_at_desc. intros a b c Hab Hbc.
    apply bool_decide_eq_true in Hab, Hbc. apply bool_decide_eq_true. lia.
Qed.

Lemma order_by_asc_sorted l :
  StronglySorted (λ a b, uploaded_at a ≤ uploaded_at b)
    (order_by by_uploaded_at l).
Proof.
  eapply StronglySorted_weaken; [|apply (order_by_sorted by_uploaded_at)].
  - intros a b Hab. unfold by_uploaded_at in Hab.
    by apply bool_decide_eq_true in Hab.
  - unfold by_uploaded_at. intros a b Hab.
    apply bool_decide_eq_false in Hab. apply bool_decide_eq_true. lia.
  - unfold by_uploaded_at. intros a b c Hab Hbc.
    apply bool_decide_eq_true in Hab, Hbc. apply bool_decide_eq_true. lia.
Qed.

(** Rows with the same upload time keep the order of the table. *)
Lemma insert_by_stable le (t : Z) d l :
  (∀ a b, uploaded_at a = uploaded_at b → le a b = true) →
  filter (λ r, uploaded_at r = t) (insert_by le d l)
  = filter (λ r, uploaded_at r = t) (d :: l).
Proof.
  intros Hties.
  induction l as [|y l IH]; simpl; [done|].
  destruct (le d y) eqn:Hdy; [done|].
  assert (uploaded_at d ≠ uploaded_at y) as Hne.
  { intros Heq. apply Hties in Heq. congruence. }
  rewrite (filter_cons _ y), IH, !(filter_cons _ d), (filter_cons _ y).
  repeat case_decide; done || congruence.
Qed.

Lemma order_by_stable le (t : Z) l :
  (∀ a b, uploaded_at a = uploaded_at b → le a b = true) →
  filter (λ r, uploaded_at r = t) (order_by le l)
  = filter (λ r, uploaded_at r = t) l.
Proof.
  intros Hties.
  induction l as [|x l IH]; simpl; [done|].
  rewrite insert_by_stable by done.
  rewrite !(filter_cons _ x), IH. done.
Qed.

(** A table already in the asked order is returned as it is. *)
Lemma order_by_sorted_id le l :
  Sorted (λ a b, le a b = true) l → order_by le l = l.
Proof.
  induction 1 as [|x l Hl IH Hx]; simpl; [done|].
  rewrite IH. destruct Hx as [|y l' Hxy]; simpl; [done|].
  by rewrite Hxy.
Qed.

Lemma insert_by_last le d l :
  Forall (λ r, le d r = false) l → insert_by le d l = l ++ [d].
Proof.
  induction 1 as [|y l Hy Hl IH]; simpl; [done|].
  by rewrite Hy, IH.
Qed.

(** On a table in strictly ascending order of upload time, descending order
    is the table reversed. *)
Lemma order_by_desc_reverse l :
  StronglySorted (λ a b, uploaded_at a < uploaded_at b) l →
  order_by by_uploaded_at_desc l = reverse l.
Proof.
  induction 1 as [|x l Hl IH Hx]; simpl; [done|].
  rewrite IH, reverse_cons. apply insert_by_last.
  apply Forall_reverse. revert Hx. apply List.Forall_impl.
  intros r Hr. unfold by_uploaded_at_desc. apply bool_decide_eq_false. lia.
Qed.

(** ** The retention loop *)

Lemma objects_earliest_elem st :
  table st ≠ [] →
  ∃ oldest, objects_earliest st = (Ok oldest, st) ∧ oldest ∈ table st
    ∧ head (order_by by_uploaded_at (table st)) = Some oldest.
Proof.
  intros Hne. unfold objects_earliest.
  destruct (order_by by_uploaded_at (table st)) as [|o rest] eqn:Hsort.
  - by apply order_by_nil in Hsort.
  - exists o. split_and!; [done | | done].
    rewrite <- (order_by_perm by_uploaded_at), Hsort. by left.
Qed.

(** The earliest dataset has the least upload time, and is the first of the
    table with that time. *)
Lemma objects_earliest_spec st :
  table st ≠ [] →
  ∃ oldest, objects_earliest st = (Ok oldest, st)
    ∧ oldest ∈ table st
    ∧ (∀ r, r ∈ table st → uploaded_at oldest ≤ uploaded_at r)
    ∧ head (filter (λ r, uploaded_at r = uploaded_at oldest) (table st)) = Some oldest.
Proof.
  intros Hne.
  destruct (objects_earliest_elem st Hne) as (oldest & Hget & Hin & Hhead).
  exists oldest. split_and!; [done | done | |].
  - pose proof (order_by_perm by_uploaded_at (table st)) as Hperm.
    pose proof (order_by_asc_sorted (table st)) as Hsorted.
    destruct (order_by by_uploaded_at (table st)) as [|o rest]; [done|].
    simpl in Hhead. simplify_eq.
    intros r Hr. rewrite <- Hperm in Hr.
    apply StronglySorted_cons in Hsorted as [Hd _].
    apply elem_of_cons in Hr as [->|Hr]; [lia|].
    by apply (proj1 (list.Forall_forall _ _) Hd).
  - rewrite <- (order_by_stable by_uploaded_at (uploaded_at oldest) (table st)).
    + destruct (order_by by_uploaded_at (table st)) as [|o rest]; [done|].
      simpl in Hhead. simplify_eq.
      rewrite filter_cons, decide_True by done. done.
    + intros a b Hab. unfold by_uploaded_at. apply bool_decide_eq_true. lia.
Qed.

(** One turn of the loop. *)
Lemma cleanup_loop_S fuel st :
  cleanup_loop (S fuel) st =
    if decide (MAX_DATASETS < length (table st))%nat then
      match order_by by_uploaded_at (table st) with
      | oldest :: _ => cleanup_loop fuel (evict oldest st)
      | [] => (Raise does_not_exist, st)
      end
    else (Ok (), st).
Proof.
  simpl. unfold mbind at 1. unfold objects_count.
  case_decide; [|done].
  unfold mbind, objects_earliest, evict.
  destruct (order_by by_uploaded_at (table st)) as [|oldest rest]; [done|].
  unfold file_delete, model_delete, mret.
  by destruct (file oldest).
Qed.

Lemma cleanup_loop_noop fuel st :
  (length (table st) ≤ MAX_DATASETS)%nat → cleanup_loop fuel st = (Ok (), st).
Proof.
  intros Hle. destruct fuel; [done|].
  rewrite cleanup_loop_S. rewrite decide_False by lia. done.
Qed.

Lemma evict_length oldest st :
  oldest ∈ table st → (length (table (evict oldest st)) < length (table st))%nat.
Proof.
  intros Hin. simpl. eapply length_filter_lt; [exact Hin|]. simpl. tauto.
Qed.

(** With as many turns as the excess over [MAX_DATASETS], the loop leaves by
    its test: no exception, and at most [MAX_DATASETS] rows are left. *)
Lemma cleanup_loop_exits fuel st :
  (length (table st) ≤ fuel + MAX_DATASETS)%nat →
  ∃ st', cleanup_loop fuel st = (Ok (), st')
    ∧ (length (table st') ≤ MAX_DATASETS)%nat
    ∧ last_pk st' = last_pk st.
Proof.
  revert st. induction fuel as [|fuel IH]; intros st Hlen.
  - exists st. by split_and!.
  - rewrite cleanup_loop_S. case_decide as Hgt.
    + destruct (objects_earliest_elem st) as (oldest & _ & Hin & Hhead).
      { intros Hnil. rewrite Hnil in Hgt. simpl in Hgt. lia. }
      destruct (order_by by_uploaded_at (table st)) as [|o rest]; [done|].
      simplify_eq/=.
      pose proof (evict_length oldest st Hin) as Hlt.
      destruct (IH (evict oldest st)) as (st' & Hrun & Hmax & Hseq); [lia|].
      exists st'. by split_and!.
    + exists st. split_and!; [done | lia | done].
Qed.

(** More turns than needed change nothing. *)
Lemma cleanup_loop_more_fuel fuel extra st st' :
  cleanup_loop fuel st = (Ok (), st') →
  (length (table st') ≤ MAX_DATASETS)%nat →
  cleanup_loop (fuel + extra) st = (Ok (), st').
Proof.
  revert st. induction fuel as [|fuel IH]; intros st Hrun Hmax.
  - simpl in Hrun. unfold mret in Hrun. simplify_eq.
    by apply cleanup_loop_noop.
  - rewrite Nat.add_succ_l, cleanup_loop_S. rewrite cleanup_loop_S in Hrun.
    case_decide; [|done].
    destruct (order_by by_uploaded_at (table st)) as [|o rest]; [done|].
    by apply IH.
Qed.

Lemma cleanup_ok st :
  ∃ st', _cleanup_old_datasets st = (Ok (), st')
    ∧ (length (table st') ≤ MAX_DATASETS)%nat
    ∧ last_pk st' = last_pk st.
Proof. unfold _cleanup_old_datasets. apply cleanup_loop_exits. lia. Qed.

Lemma cleanup_noop st :
  (length (table st) ≤ MAX_DATASETS)%nat → _cleanup_old_datasets st = (Ok (), st).
Proof. apply cleanup_loop_noop. Qed.

(** ** The upload view, case by case *)

Lemma post_except_unchanged e st :
  ∃ body code, post_except e st = (Ok (mkResponse (ErrorBody body) code), st).
Proof. destruct e; simpl; unfold mret; eauto. Qed.

(** The JSON field accepts a summary exactly when each of its averages is a
    finite number. *)
Lemma json_valid_true (s : Summary (float := float)) :
  json_valid s = true
  ↔ ∀ c m, averages s !! c = Some m → ∃ x, m = Some x ∧ isfinite x = true.
Proof.
  unfold json_valid. rewrite bool_decide_eq_true. unfold map_Forall.
  split; intros Hall c m Hc; specialize (Hall c m Hc).
  - destruct m as [x|]; [by exists x | done].
  - by destruct Hall as (x & -> & Hx).
Qed.

Lemma json_valid_NaN (s : Summary (float := float)) c :
  averages s !! c = Some None → json_valid s = false.
Proof.
  intros Hc. apply not_true_is_false. intros Hvalid.
  destruct (proj1 (json_valid_true s) Hvalid c None Hc) as (x & ? & _). done.
Qed.

(** The two outcomes of [objects_create]. *)
Lemma objects_create_valid now (csv_file : UploadedFile) (s : Summary (float := float))
    filename st :
  storage_accepts (name csv_file) = true →
  json_valid s = true →
  objects_create now csv_file s filename st
  = (Ok (mkDataset (last_pk st + 1) (Some (fresh (dom (media st)))) now (Some s)
           filename ""),
     mkStore (table st ++ [mkDataset (last_pk st + 1) (Some (fresh (dom (media st))))
                             now (Some s) filename ""])
       (last_pk st + 1) (<[fresh (dom (media st)) := content csv_file]> (media st))).
Proof. intros Hname Hvalid. unfold objects_create. by rewrite Hname, Hvalid. Qed.

Lemma objects_create_refused now (csv_file : UploadedFile) (s : Summary (float := float))
    filename st :
  storage_accepts (name csv_file) = true →
  json_valid s = false →
  objects_create now csv_file s filename st
  = (Raise (IntegrityError integrity_error_text),
     mkStore (table st) (last_pk st)
       (<[fresh (dom (media st)) := content csv_file]> (media st))).
Proof. intros Hname Hvalid. unfold objects_create. by rewrite Hname, Hvalid. Qed.

Lemma objects_create_bad_name now (csv_file : UploadedFile)
    (s : Summary (float := float)) filename st :
  storage_accepts (name csv_file) = false →
  objects_create now csv_file s filename st
  = (Raise (SuspiciousFileOperation (file_name_error_text (name csv_file))), st).
Proof. intros Hname. unfold objects_create. by rewrite Hname. Qed.

Lemma post_parsed now request st csv_file df :
  FILES request !! "file"%string = Some csv_file →
  file_bool csv_file = true →
  read_csv (content csv_file) = Ok df →
  UploadCSV_post mean64 read_csv now request st =
    if decide (REQUIRED_COLUMNS ⊆ list_to_set (columns df)) then
      match _calculate_summary mean64 df with
      | Ok s =>
          let created := objects_create now csv_file s (name csv_file) st in
          match created.1, _cleanup_old_datasets created.2 with
          | Ok dataset, (Ok _, st') => (Ok (mkResponse (DatasetBody dataset) 201), st')
          | Ok dataset, (Raise e, st') => post_except e st'
          | Raise e, _ => post_except e created.2
          end
      | Raise e => post_except e st
      end
    else (Ok (mkResponse (MissingColumnsBody "CSV missing required columns"
                            (elements REQUIRED_COLUMNS) (columns df)) 400), st).
Proof.
  intros Hfile Hbool Hread. unfold UploadCSV_post.
  rewrite Hfile, Hbool. unfold try_except, mbind at 1, lift at 1.
  rewrite Hread. case_decide; [|done].
  unfold mbind at 1, lift. destruct (_calculate_summary mean64 df) as [s|e]; [|done].
  unfold mbind at 1. unfold objects_create.
  destruct (storage_accepts (name csv_file)); [|done].
  destruct (json_valid s); simpl; [|done].
  unfold mbind. destruct (_cleanup_old_datasets _) as [[[]|e] st']; done.
Qed.

(** The upload of a file that parses to a table with the required columns
    and gets a summary: the dataset is created when the JSON field accepts
    the summary, and the catch-all handler answers when it does not. *)
Lemma post_valid now request st csv_file df s :
  FILES request !! "file"%string = Some csv_file →
  file_bool csv_file = true →
  read_csv (content csv_file) = Ok df →
  REQUIRED_COLUMNS ⊆ list_to_set (columns df) →
  _calculate_summary mean64 df = Ok s →
  storage_accepts (name csv_file) = true →
  json_valid s = true →
  let dataset := mkDataset (last_pk st + 1) (Some (fresh (dom (media st)))) now (Some s)
                   (name csv_file) "" in
  ∃ st',
    _cleanup_old_datasets
      (mkStore (table st ++ [dataset]) (last_pk st + 1)
         (<[fresh (dom (media st)) := content csv_file]> (media st)))
    = (Ok (), st')
    ∧ UploadCSV_post mean64 read_csv now request st
      = (Ok (mkResponse (DatasetBody dataset) 201), st').
Proof.
  intros Hfile Hbool Hread Hsub Hs Hname Hvalid dataset.
  destruct (cleanup_ok
              (mkStore (table st ++ [dataset]) (last_pk st + 1)
                 (<[fresh (dom (media st)) := content csv_file]> (media st))))
    as (st' & Hrun & _).
  exists st'. split; [done|].
  rewrite (post_parsed _ _ _ _ _ Hfile Hbool Hread), decide_True by done.
  rewrite Hs, (objects_create_valid _ _ _ _ _ Hname Hvalid). simpl.
  fold dataset. by rewrite Hrun.
Qed.

Lemma post_refused now request st csv_file df s :
  FILES request !! "file"%string = Some csv_file →
  file_bool csv_file = true →
  read_csv (content csv_file) = Ok df →
  REQUIRED_COLUMNS ⊆ list_to_set (columns df) →
  _calculate_summary mean64 df = Ok s →
  storage_accepts (name csv_file) = true →
  json_valid s = false →
  UploadCSV_post mean64 read_csv now request st
  = (Ok (mkResponse (ErrorBody ("Processing error: " +:+ integrity_error_text)) 500),
     mkStore (table st) (last_pk st)
       (<[fresh (dom (media st)) := content csv_file]> (media st))).
Proof.
  intros Hfile Hbool Hread Hsub Hs Hname Hvalid.
  rewrite (post_parsed _ _ _ _ _ Hfile Hbool Hread), decide_True by done.
  by rewrite Hs, (objects_create_refused _ _ _ _ _ Hname Hvalid).
Qed.

Lemma post_bad_name now request st csv_file df s :
  FILES request !! "file"%string = Some csv_file →
  file_bool csv_file = true →
  read_csv (content csv_file) = Ok df →
  REQUIRED_COLUMNS ⊆ list_to_set (columns df) →
  _calculate_summary mean64 df = Ok s →
  storage_accepts (name csv_file) = false →
  UploadCSV_post mean64 read_csv now request st
  = (Ok (mkResponse
           (ErrorBody ("Processing error: " +:+ file_name_error_text (name csv_file)))
           500), st).
Proof.
  intros Hfile Hbool Hread Hsub Hs Hname.
  rewrite (post_parsed _ _ _ _ _ Hfile Hbool Hread), decide_True by done.
  by rewrite Hs, (objects_create_bad_name _ _ _ _ _ Hname).
Qed.

(** An upload either leaves the store as it was, or creates one dataset and
    then runs the retention loop to its end, or has its row refused by the
    database and leaves the saved file behind. *)
Lemma post_store now request st :
  let r := UploadCSV_post mean64 read_csv now request st in
  r.2 = st
  ∨ (∃ csv_file s dataset st_created,
       FILES request !! "file"%string = Some csv_file
       ∧ objects_create now csv_file s (name csv_file) st = (Ok dataset, st_created)
       ∧ _cleanup_old_datasets st_created = (Ok (), r.2)
       ∧ r.1 = Ok (mkResponse (DatasetBody dataset) 201))
  ∨ (∃ csv_file,
       FILES request !! "file"%string = Some csv_file
       ∧ r.2 = mkStore (table st) (last_pk st)
                 (<[fresh (dom (media st)) := content csv_file]> (media st))
       ∧ r.1 = Ok (mkResponse
                     (ErrorBody ("Processing error: " +:+ integrity_error_text)) 500)).
Proof.
  simpl.
  destruct (FILES request !! "file"%string) as [csv_file|] eqn:Hfile;
    [|left; unfold UploadCSV_post; by rewrite Hfile].
  destruct (file_bool csv_file) eqn:Hbool;
    [|left; unfold UploadCSV_post; by rewrite Hfile, Hbool].
  destruct (read_csv (content csv_file)) as [df|e] eqn:Hread.
  - rewrite (post_parsed _ _ _ _ _ Hfile Hbool Hread).
    case_decide; [|by left].
    destruct (_calculate_summary mean64 df) as [s|e].
    + destruct (storage_accepts (name csv_file)) eqn:Hname.
      2:{ left. rewrite (objects_create_bad_name _ _ _ _ _ Hname). done. }
      destruct (json_valid s) eqn:Hvalid.
      * right. left. exists csv_file, s.
        rewrite (objects_create_valid _ _ _ _ _ Hname Hvalid). simpl.
        destruct (cleanup_ok
                    (mkStore (table st ++
                       [mkDataset (last_pk st + 1) (Some (fresh (dom (media st))))
                          now (Some s) (name csv_file) ""]) (last_pk st + 1)
                       (<[fresh (dom (media st)) := content csv_file]> (media st))))
          as (st' & Hrun & _).
        rewrite Hrun. simpl. eauto 10.
      * right. right. exists csv_file.
        rewrite (objects_create_refused _ _ _ _ _ Hname Hvalid). simpl. eauto.
    + left. by destruct (post_except_unchanged e st) as (? & ? & ->).
  - left. unfold UploadCSV_post. rewrite Hfile, Hbool.
    unfold try_except, mbind, lift. rewrite Hread.
    by destruct (post_except_unchanged e st) as (? & ? & ->).
Qed.

Lemma post_count now request st :
  (length (table st) ≤ MAX_DATASETS)%nat →
  (length (table (UploadCSV_post mean64 read_csv now request st).2) ≤ MAX_DATASETS)%nat.
Proof.
  intros Hle.
  destruct (post_store now request st)
    as [-> | [(f & s & d & st_c & _ & _ & Hrun & _) | (f & _ & -> & _)]]; [done| |done].
  destruct (cleanup_ok st_c) as (st' & Hrun' & Hmax & _).
  rewrite Hrun in Hrun'. by simplify_eq.
Qed.

(** C1. Starting from a store with at most [MAX_DATASETS] = 5 datasets, after
    every upload of any run of uploads (the successful ingestions, and the
    refused ones, which leave the table as it was) the store holds at most 5
    datasets. *)
Theorem upload_keeps_at_most_MAX_DATASETS (calls : list (Z * Request)) st :
  (length (table st) ≤ MAX_DATASETS)%nat →
  Forall (λ r, (length (table r.2) ≤ 5)%nat) (uploads mean64 read_csv calls st).
Proof.
  revert st. induction calls as [|[now request] calls IH]; intros st Hle; simpl.
  - constructor.
  - pose proof (post_count now request st Hle) as Hstep.
    constructor; [exact Hstep|]. by apply IH.
Qed.

(** C8. The retention pass always ends without an exception; run again on
    the store it produced it changes nothing; and on a store that holds at
    most [MAX_DATASETS] datasets it changes nothing in the first place. *)
Theorem cleanup_idempotent st :
  ∃ st1,
    _cleanup_old_datasets st = (Ok (), st1)
    ∧ _cleanup_old_datasets st1 = (Ok (), st1)
    ∧ ((length (table st) ≤ MAX_DATASETS)%nat → st1 = st).
Proof.
  destruct (cleanup_ok st) as (st1 & Hrun & Hmax & _).
  exists st1. split_and!; [done | by apply cleanup_noop |].
  intros Hle. rewrite cleanup_noop in Hrun by done. by simplify_eq.
Qed.

(** C9. An upload request without a file is answered with the
    'No file provided' error and status 400, and the store is left as it
    was: nothing is created and the retention pass does not run. *)
Theorem post_without_file now request st :
  FILES request !! "file"%string = None →
  UploadCSV_post mean64 read_csv now request st
  = (Ok (mkResponse (ErrorBody "No file provided") 400), st).
Proof. intros Hfile. unfold UploadCSV_post. by rewrite Hfile. Qed.

(** ** Schema validation *)

Lemma REQUIRED_COLUMNS_header : REQUIRED_COLUMNS = list_to_set header.
Proof. unfold REQUIRED_COLUMNS, header. simpl. set_solver. Qed.

Lemma header_NoDup : NoDup header.
Proof. unfold header. apply (bool_decide_unpack _). by vm_compute. Qed.

Lemma issubset_header (cols : list string) :
  REQUIRED_COLUMNS ⊆ (list_to_set cols : gset string)
  ↔ ∀ c, c ∈ header → c ∈ cols.
Proof. rewrite REQUIRED_COLUMNS_header. set_solver. Qed.

Lemma not_issubset_header (cols : list string) :
  ¬ REQUIRED_COLUMNS ⊆ (list_to_set cols : gset string)
  ↔ ∃ c, c ∈ header ∧ c ∉ cols.
Proof.
  rewrite issubset_header. split.
  - intros Hnot. destruct (decide (Forall (λ c, c ∈ cols) header)) as [Hall|Hex].
    + destruct Hnot. by apply list.Forall_forall.
    + apply (not_Forall_Exists _) in Hex.
      apply list.Exists_exists in Hex as (c & Hc & Hmiss). by exists c.
  - intros (c & Hc & Hmiss) Hall. by apply Hmiss, Hall.
Qed.

(** C3. When the uploaded file parses to a table, the upload is refused with
    the missing-columns response exactly when one of the five required names
    is not, as the same string, among the table's columns (in whatever
    order they come); the response then has status 400 and carries the
    required names and the columns found, and the store is left as it
    was. *)
Theorem schema_error_iff_column_missing now request st csv_file df :
  FILES request !! "file"%string = Some csv_file →
  file_bool csv_file = true →
  read_csv (content csv_file) = Ok df →
  let r := UploadCSV_post mean64 read_csv now request st in
  (is_schema_error r.1 ↔ ∃ c, c ∈ header ∧ c ∉ columns df)
  ∧ (is_schema_error r.1 →
       r = (Ok (mkResponse
                  (MissingColumnsBody "CSV missing required columns"
                     (elements REQUIRED_COLUMNS) (columns df)) 400), st))
  ∧ elements REQUIRED_COLUMNS ≡ₚ header.
Proof.
  intros Hfile Hbool Hread r.
  assert (is_schema_error r.1 → ¬ REQUIRED_COLUMNS ⊆ list_to_set (columns df)) as Hfail.
  { subst r. intros Herr Hsub.
    destruct (_calculate_summary mean64 df) as [s|e] eqn:Hs.
    - destruct (storage_accepts (name csv_file)) eqn:Hname.
      2:{ by rewrite (post_bad_name now request st csv_file df s Hfile Hbool Hread Hsub
                        Hs Hname) in Herr. }
      destruct (json_valid s) eqn:Hvalid.
      + destruct (post_valid now request st csv_file df s Hfile Hbool Hread Hsub Hs
                    Hname Hvalid) as (st' & _ & Heq).
        by rewrite Heq in Herr.
      + by rewrite (post_refused now request st csv_file df s Hfile Hbool Hread Hsub
                      Hs Hname Hvalid) in Herr.
    - rewrite (post_parsed _ _ _ _ _ Hfile Hbool Hread), decide_True, Hs in Herr by done.
      by destruct (post_except_unchanged e st) as (? & ? & Heq); rewrite Heq in Herr. }
  assert (¬ REQUIRED_COLUMNS ⊆ list_to_set (columns df) →
          r = (Ok (mkResponse
                     (MissingColumnsBody "CSV missing required columns"
                        (elements REQUIRED_COLUMNS) (columns df)) 400), st)) as Hrefused.
  { intros Hnot. subst r. rewrite (post_parsed _ _ _ _ _ Hfile Hbool Hread).
    by rewrite decide_False. }
  split_and!.
  - rewrite <- not_issubset_header. split; [done|].
    intros Hnot. by rewrite (Hrefused Hnot).
  - intros Herr. by apply Hrefused, Hfail.
  - rewrite REQUIRED_COLUMNS_header. apply elements_list_to_set, header_NoDup.
Qed.

(** ** The aggregator *)

Lemma getitem_present df c :
  c ∈ columns df →
  ∃ i, getitem df c = Ok ((λ r, default NaN (r !! i)) <$> rows df).
Proof.
  intros Hc. unfold getitem.
  destruct (list_find_elem_of (λ c', c' = c) (columns df) c Hc eq_refl) as [[i c'] ->].
  by exists i.
Qed.

Lemma getitem_length df c col :
  getitem df c = Ok col → length col = length (rows df).
Proof.
  unfold getitem. destruct (list_find _ _) as [[i ?]|]; [|done].
  intros [= <-]. by rewrite length_fmap.
Qed.

Lemma getitem_no_rows df c col :
  rows df = [] → getitem df c = Ok col → col = [].
Proof.
  intros Hrows Hcol. apply getitem_length in Hcol.
  rewrite Hrows in Hcol. by apply length_zero_iff_nil.
Qed.

Lemma header_numeric c : c ∈ numeric_columns → c ∈ header.
Proof.
  revert c. apply (list.Forall_forall (λ c, c ∈ header) numeric_columns).
  apply (bool_decide_unpack _). by vm_compute.
Qed.

(** With the required columns present, the selection of the three numeric
    columns succeeds. *)
Lemma getitems_numeric df :
  (∀ c, c ∈ header → c ∈ columns df) →
  ∃ flowrate pressure temperature,
    getitem df "Flowrate" = Ok flowrate
    ∧ getitem df "Pressure" = Ok pressure
    ∧ getitem df "Temperature" = Ok temperature
    ∧ getitems df numeric_columns
      = Ok [("Flowrate"%string, flowrate); ("Pressure"%string, pressure);
            ("Temperature"%string, temperature)].
Proof.
  intros Hcols.
  destruct (getitem_present df "Flowrate") as [i Hi];
    [apply Hcols; unfold header; set_solver|].
  destruct (getitem_present df "Pressure") as [j Hj];
    [apply Hcols; unfold header; set_solver|].
  destruct (getitem_present df "Temperature") as [k Hk];
    [apply Hcols; unfold header; set_solver|].
  do 3 eexists. split_and!; [done..|].
  unfold getitems, numeric_columns. simpl. rewrite Hi, Hj, Hk. done.
Qed.

(** [mean_to_dict] on the three numeric columns. *)
Lemma mean_to_dict_numeric (fl pr te : list (Cell (float := float))) :
  mean_to_dict mean64
    [("Flowrate"%string, fl); ("Pressure"%string, pr); ("Temperature"%string, te)]
  = if decide (texts fl = [] ∧ texts pr = [] ∧ texts te = [])
    then Ok (list_to_map [("Flowrate"%string, series_mean mean64 fl);
                          ("Pressure"%string, series_mean mean64 pr);
                          ("Temperature"%string, series_mean mean64 te)])
    else Raise (TypeError
                  (mean_error_text
                     [("Flowrate"%string, fl); ("Pressure"%string, pr);
                      ("Temperature"%string, te)])).
Proof.
  unfold mean_to_dict. case_decide as Hall; case_decide as Hthree; try done.
  - destruct Hthree.
    apply list.Forall_cons in Hall as [? Hall].
    apply list.Forall_cons in Hall as [? Hall].
    by apply list.Forall_cons in Hall as [? _].
  - destruct Hall. destruct Hthree as (? & ? & ?). by repeat constructor.
Qed.

Lemma texts_elem col s : Str s ∈ col → texts col ≠ [].
Proof.
  intros Hs Hnil. assert (s ∈ texts col) as Hin.
  { unfold texts. apply list_elem_of_omap. by exists (Str s). }
  rewrite Hnil in Hin. by apply not_elem_of_nil in Hin.
Qed.

(** What [_calculate_summary] returns when it returns. *)
Lemma calculate_summary_Ok df s :
  _calculate_summary mean64 df = Ok s →
  total_count s = length (rows df)
  ∧ ∃ types, getitem df "Type" = Ok types ∧ type_distribution s = value_counts types.
Proof.
  unfold _calculate_summary.
  destruct (getitems df numeric_columns) as [numeric|]; [simpl|done].
  destruct (mean_to_dict mean64 numeric) as [avg|]; [simpl|done].
  destruct (getitem df "Type") as [types|]; [simpl|done].
  intros [= <-]. simpl. eauto.
Qed.

(** A text in one of the three numeric columns makes [_calculate_summary]
    raise [TypeError]. *)
Lemma calculate_summary_text df c col s :
  (∀ c, c ∈ header → c ∈ columns df) →
  c ∈ numeric_columns → getitem df c = Ok col → Str s ∈ col →
  ∃ msg, _calculate_summary mean64 df = Raise (TypeError msg).
Proof.
  intros Hcols Hc Hcol Hs.
  destruct (getitems_numeric df Hcols) as (fl & pr & te & Hfl & Hpr & Hte & Hsel).
  unfold _calculate_summary. rewrite Hsel. simpl.
  apply texts_elem in Hs.
  rewrite mean_to_dict_numeric. rewrite decide_False; [simpl; eauto|].
  intros (Ht1 & Ht2 & Ht3).
  unfold numeric_columns in Hc.
  apply elem_of_cons in Hc as [->|Hc]; [congruence|].
  apply elem_of_cons in Hc as [->|Hc]; [congruence|].
  apply list_elem_of_singleton in Hc as ->. congruence.
Qed.

(** C2, as the code has it.  When the aggregator returns a summary for a
    table, [total_count] is the
    number of data rows, and the counts of [type_distribution] add up to the
    number of rows whose [Type] cell is not missing; they add up to
    [total_count] when no [Type] cell is missing. *)
Theorem summary_counts df s :
  _calculate_summary mean64 df = Ok s →
  total_count s = length (rows df)
  ∧ ∃ types,
      getitem df "Type" = Ok types
      ∧ sum_values (type_distribution s) = series_count types
      ∧ (NaN ∉ types → sum_values (type_distribution s) = total_count s).
Proof.
  intros Hs. apply calculate_summary_Ok in Hs as (Htotal & types & Htypes & Hdist).
  split; [done|]. exists types. rewrite Hdist, sum_value_counts.
  split_and!; [done..|].
  intros Hna. rewrite series_count_no_missing by done.
  rewrite Htotal. by eapply getitem_length.
Qed.

Lemma calculate_summary_no_rows df :
  (∀ c, c ∈ header → c ∈ columns df) → rows df = [] →
  _calculate_summary mean64 df
  = Ok (mkSummary 0
          (list_to_map [("Flowrate"%string, None); ("Pressure"%string, None);
                        ("Temperature"%string, None)]) ∅).
Proof.
  intros Hcols Hrows.
  destruct (getitems_numeric df Hcols) as (fl & pr & te & Hfl & Hpr & Hte & Hsel).
  apply (getitem_no_rows _ _ _ Hrows) in Hfl as ->.
  apply (getitem_no_rows _ _ _ Hrows) in Hpr as ->.
  apply (getitem_no_rows _ _ _ Hrows) in Hte as ->.
  destruct (getitem_present df "Type") as [i Hi];
    [apply Hcols; unfold header; rewrite !elem_of_cons; tauto|].
  unfold _calculate_summary. rewrite Hsel. cbn [rbind].
  rewrite mean_to_dict_numeric, decide_True by done. cbn [rbind].
  rewrite Hi. unfold len. rewrite Hrows. done.
Qed.

(** C10, as the code has it.  For a table with the required columns and no
    data rows the aggregator does not fail: it returns a summary with
    [total_count] 0, an empty [type_distribution] and NaN for the three
    averages.  That summary is not one the JSON field accepts, so the
    creation of the dataset raises and the upload is answered with the
    catch-all 'Processing error' response, status 500: no dataset is created
    and no key is used. *)
Theorem header_only_table_is_not_stored now request st csv_file df :
  FILES request !! "file"%string = Some csv_file →
  file_bool csv_file = true →
  read_csv (content csv_file) = Ok df →
  (∀ c, c ∈ header → c ∈ columns df) →
  rows df = [] →
  ∃ s msg st',
    _calculate_summary mean64 df = Ok s
    ∧ total_count s = 0%nat
    ∧ type_distribution s = ∅
    ∧ (∀ c, c ∈ numeric_columns → averages s !! c = Some None)
    ∧ json_valid s = false
    ∧ UploadCSV_post mean64 read_csv now request st
      = (Ok (mkResponse (ErrorBody ("Processing error: " +:+ msg)) 500), st')
    ∧ table st' = table st
    ∧ last_pk st' = last_pk st.
Proof.
  intros Hfile Hbool Hread Hcols Hrows.
  pose proof (calculate_summary_no_rows df Hcols Hrows) as Hs.
  set (s := mkSummary 0 _ _) in Hs.
  assert (total_count s = 0%nat) as Htotal by done.
  assert (type_distribution s = ∅) as Hdist by done.
  assert (∀ c, c ∈ numeric_columns → averages s !! c = Some None) as Hnan.
  { intros c Hc. unfold numeric_columns in Hc.
    repeat (apply elem_of_cons in Hc as [->|Hc]; [done|]).
    by apply not_elem_of_nil in Hc. }
  clearbody s.
  assert (json_valid s = false) as Hvalid.
  { apply (json_valid_NaN s "Flowrate"), Hnan. unfold numeric_columns. by left. }
  assert (REQUIRED_COLUMNS ⊆ list_to_set (columns df)) as Hsub
    by by apply issubset_header.
  exists s.
  destruct (storage_accepts (name csv_file)) eqn:Hname.
  - exists integrity_error_text,
      (mkStore (table st) (last_pk st)
         (<[fresh (dom (media st)) := content csv_file]> (media st))).
    split_and!; [exact Hs | exact Htotal | exact Hdist | exact Hnan | exact Hvalid
                 | | done..].
    by apply (post_refused now request st csv_file df s).
  - exists (file_name_error_text (name csv_file)), st.
    split_and!; [exact Hs | exact Htotal | exact Hdist | exact Hnan | exact Hvalid
                 | | done..].
    by apply (post_bad_name now request st csv_file df s).
Qed.

(** C4, as the code has it.  When the table has the required columns and
    one of the three numeric columns holds a text, the upload is answered
    with the catch-all 'Processing error' response, status 500, whose only
    content is the message of the exception; the store is left as it was, so
    no dataset is created and no averages are returned. *)
Theorem text_in_numeric_column_is_processing_error
    now request st csv_file df c col s :
  FILES request !! "file"%string = Some csv_file →
  file_bool csv_file = true →
  read_csv (content csv_file) = Ok df →
  (∀ c, c ∈ header → c ∈ columns df) →
  c ∈ numeric_columns → getitem df c = Ok col → Str s ∈ col →
  ∃ msg,
    UploadCSV_post mean64 read_csv now request st
    = (Ok (mkResponse (ErrorBody ("Processing error: " +:+ msg)) 500), st).
Proof.
  intros Hfile Hbool Hread Hcols Hc Hcol Hs.
  destruct (calculate_summary_text df c col s Hcols Hc Hcol Hs) as [msg Hraise].
  exists msg. rewrite (post_parsed _ _ _ _ _ Hfile Hbool Hread).
  rewrite decide_True by by apply issubset_header.
  by rewrite Hraise.
Qed.

(** ** Listing and latest *)

(** C6, as the code has it.  The history view always answers, with a list
    that holds every stored dataset once, most recent upload first; datasets
    with the same upload time come in the order the table has them (the
    query orders by [uploaded_at] only, the key plays no part). *)
Theorem history_is_every_dataset_most_recent_first st :
  ∃ ds,
    HistoryList_get st = (Ok (mkResponse (HistoryBody ds) 200), st)
    ∧ ds ≡ₚ table st
    ∧ StronglySorted (λ a b, uploaded_at b ≤ uploaded_at a) ds
    ∧ ∀ t : Z, filter (λ r, uploaded_at r = t) ds
               = filter (λ r, uploaded_at r = t) (table st).
Proof.
  exists (order_by by_uploaded_at_desc (table st)).
  split_and!.
  - done.
  - apply order_by_perm.
  - apply order_by_desc_sorted.
  - intros t. apply order_by_stable.
    intros a b Hab. unfold by_uploaded_at_desc. apply bool_decide_eq_true. lia.
Qed.

Lemma objects_latest_spec st :
  table st ≠ [] →
  ∃ d, objects_latest st = (Ok d, st)
    ∧ d ∈ table st
    ∧ (∀ r, r ∈ table st → uploaded_at r ≤ uploaded_at d)
    ∧ head (filter (λ r, uploaded_at r = uploaded_at d) (table st)) = Some d.
Proof.
  intros Hne. unfold objects_latest.
  pose proof (order_by_perm by_uploaded_at_desc (table st)) as Hperm.
  pose proof (order_by_desc_sorted (table st)) as Hsorted.
  pose proof (order_by_stable by_uploaded_at_desc) as Hstable.
  destruct (order_by by_uploaded_at_desc (table st)) as [|d rest] eqn:Hsort.
  { by apply order_by_nil in Hsort. }
  exists d. split_and!.
  - done.
  - rewrite <- Hperm. by left.
  - intros r Hr. rewrite <- Hperm in Hr.
    apply StronglySorted_cons in Hsorted as [Hd _].
    apply elem_of_cons in Hr as [->|Hr]; [lia|].
    by apply (proj1 (list.Forall_forall _ _) Hd).
  - rewrite <- (Hstable (uploaded_at d) (table st)), Hsort.
    + rewrite filter_cons, decide_True by done. done.
    + intros a b Hab. unfold by_uploaded_at_desc. apply bool_decide_eq_true. lia.
Qed.

(** What a 201 response tells: one dataset was created from the request's
    file, and the retention pass ran to its end on the store with it. *)
Lemma post_created_inv now request st dataset st' :
  UploadCSV_post mean64 read_csv now request st
  = (Ok (mkResponse (DatasetBody dataset) 201), st') →
  ∃ csv_file s,
    FILES request !! "file"%string = Some csv_file
    ∧ dataset = mkDataset (last_pk st + 1) (Some (fresh (dom (media st)))) now (Some s)
                  (name csv_file) ""
    ∧ _cleanup_old_datasets
        (mkStore (table st ++ [dataset]) (last_pk st + 1)
           (<[fresh (dom (media st)) := content csv_file]> (media st)))
      = (Ok (), st').
Proof.
  intros Hpost.
  destruct (FILES request !! "file"%string) as [csv_file|] eqn:Hfile;
    [|unfold UploadCSV_post in Hpost; by rewrite Hfile in Hpost].
  destruct (file_bool csv_file) eqn:Hbool;
    [|unfold UploadCSV_post in Hpost; by rewrite Hfile, Hbool in Hpost].
  destruct (read_csv (content csv_file)) as [df|e] eqn:Hread.
  - destruct (decide (REQUIRED_COLUMNS ⊆ list_to_set (columns df))) as [Hsub|Hsub].
    2:{ by rewrite (post_parsed _ _ _ _ _ Hfile Hbool Hread), decide_False in Hpost. }
    destruct (_calculate_summary mean64 df) as [s|e] eqn:Hs.
    + destruct (storage_accepts (name csv_file)) eqn:Hname.
      2:{ by rewrite (post_bad_name now request st csv_file df s Hfile Hbool Hread Hsub
                        Hs Hname) in Hpost. }
      destruct (json_valid s) eqn:Hvalid.
      * destruct (post_valid now request st csv_file df s Hfile Hbool Hread Hsub Hs
                    Hname Hvalid) as (st1 & Hrun & Heq).
        rewrite Heq in Hpost. simplify_eq. exists csv_file, s. by split_and!.
      * by rewrite (post_refused now request st csv_file df s Hfile Hbool Hread Hsub
                      Hs Hname Hvalid) in Hpost.
    + rewrite (post_parsed _ _ _ _ _ Hfile Hbool Hread), decide_True, Hs in Hpost by done.
      destruct (post_except_unchanged e st) as (? & ? & Heq).
      rewrite Heq in Hpost. done.
  - unfold UploadCSV_post in Hpost. rewrite Hfile, Hbool in Hpost.
    unfold try_except, mbind, lift in Hpost. rewrite Hread in Hpost.
    destruct (post_except_unchanged e st) as (? & ? & Heq).
    rewrite Heq in Hpost. done.
Qed.

(** C7, as the code has it.  The latest-summary view answers 404 exactly
    when the store is empty; on a non-empty store it answers from a dataset
    of maximal upload time, the first such in the table (the query orders by
    [uploaded_at] only); after one successful upload into an empty store,
    that dataset is the uploaded one. *)
Theorem latest_summary st :
  ((LatestSummary_get st).1 = Ok (mkResponse (ErrorBody "No datasets found") 404)
   ↔ table st = [])
  ∧ (table st ≠ [] →
     ∃ d, objects_latest st = (Ok d, st)
       ∧ d ∈ table st
       ∧ (∀ r, r ∈ table st → uploaded_at r ≤ uploaded_at d)
       ∧ head (filter (λ r, uploaded_at r = uploaded_at d) (table st)) = Some d
       ∧ LatestSummary_get st
         = (Ok (mkResponse (LatestBody (summary d) (uploaded_at d)
                              (original_filename d)) 200), st))
  ∧ (∀ now request d st',
       table st = [] →
       UploadCSV_post mean64 read_csv now request st
       = (Ok (mkResponse (DatasetBody d) 201), st') →
       objects_latest st' = (Ok d, st') ∧ table st' = [d]).
Proof.
  assert (table st ≠ [] →
     ∃ d, objects_latest st = (Ok d, st)
       ∧ d ∈ table st
       ∧ (∀ r, r ∈ table st → uploaded_at r ≤ uploaded_at d)
       ∧ head (filter (λ r, uploaded_at r = uploaded_at d) (table st)) = Some d
       ∧ LatestSummary_get st
         = (Ok (mkResponse (LatestBody (summary d) (uploaded_at d)
                              (original_filename d)) 200), st)) as Hfull.
  { intros Hne. destruct (objects_latest_spec st Hne) as (d & Hd & Hin & Hmax & Hfirst).
    exists d. split_and!; [done..|].
    unfold LatestSummary_get, try_except, mbind. by rewrite Hd. }
  split_and!; [|exact Hfull|].
  - split.
    + intros H404. destruct (table st) as [|r rs] eqn:Htable; [done|].
      destruct Hfull as (d & _ & _ & _ & _ & Hget); [done|].
      rewrite Hget in H404. done.
    + intros Hnil. unfold LatestSummary_get, try_except, mbind, objects_latest.
      by rewrite Hnil.
  - intros now request d st' Hnil Hpost.
    apply post_created_inv in Hpost as (csv_file & s & _ & Hd & Hrun).
    rewrite Hnil in Hrun. simpl in Hrun.
    rewrite cleanup_noop in Hrun by (simpl; unfold MAX_DATASETS; lia).
    simplify_eq. done.
Qed.

(** ** Eviction *)

Lemma filter_all {A} (P : A → Prop) `{∀ x, Decision (P x)} (xs : list A) :
  Forall P xs → filter P xs = xs.
Proof.
  induction 1 as [|x xs Hx Hxs IH]; [done|].
  rewrite filter_cons, decide_True by done. by f_equal.
Qed.

(** A first row that no other row is older than is the earliest. *)
Lemma order_by_head_oldest oldest l :
  Forall (λ r, uploaded_at oldest ≤ uploaded_at r) l →
  head (order_by by_uploaded_at (oldest :: l)) = Some oldest.
Proof.
  intros Hall. simpl.
  pose proof (order_by_perm by_uploaded_at l) as Hperm.
  destruct (order_by by_uploaded_at l) as [|y rest]; simpl; [done|].
  assert (by_uploaded_at oldest y = true) as ->; [|done].
  apply bool_decide_eq_true.
  apply (proj1 (list.Forall_forall _ _) Hall). rewrite <- Hperm. by left.
Qed.

(** One row over the limit: the pass evicts the earliest row and stops. *)
Lemma cleanup_one_over st oldest :
  length (table st) = S MAX_DATASETS →
  head (order_by by_uploaded_at (table st)) = Some oldest →
  _cleanup_old_datasets st = (Ok (), evict oldest st).
Proof.
  intros Hlen Hhead. unfold _cleanup_old_datasets. rewrite Hlen.
  rewrite cleanup_loop_S, decide_True by lia.
  pose proof (order_by_perm by_uploaded_at (table st)) as Hperm.
  destruct (order_by by_uploaded_at (table st)) as [|o tl]; [done|].
  simpl in Hhead. simplify_eq.
  apply cleanup_loop_noop.
  assert (oldest ∈ table st) as Hin by (rewrite <- Hperm; by left).
  apply evict_length in Hin. lia.
Qed.

(** An upload into a store that has room: the new dataset is appended and
    nothing is evicted. *)
Lemma post_created_room now request st dataset st' :
  (length (table st) < MAX_DATASETS)%nat →
  UploadCSV_post mean64 read_csv now request st
  = (Ok (mkResponse (DatasetBody dataset) 201), st') →
  table st' = table st ++ [dataset]
  ∧ last_pk st' = last_pk st + 1 ∧ pk dataset = last_pk st + 1
  ∧ uploaded_at dataset = now ∧ is_Some (file dataset).
Proof.
  intros Hroom Hpost.
  apply post_created_inv in Hpost as (csv_file & s & _ & Hd & Hrun).
  rewrite cleanup_noop in Hrun by (simpl; rewrite length_app; simpl; lia).
  simplify_eq. simpl. by split_and!.
Qed.

(** An upload into a full store whose first row is the oldest: the retention
    pass removes that row and its file, and nothing else. *)
Lemma post_created_full now request st dataset st' oldest rest :
  table st = oldest :: rest →
  length (table st) = MAX_DATASETS →
  Forall (λ r, uploaded_at oldest ≤ uploaded_at r ∧ pk r ≠ pk oldest) rest →
  uploaded_at oldest ≤ now →
  pk oldest ≠ last_pk st + 1 →
  UploadCSV_post mean64 read_csv now request st
  = (Ok (mkResponse (DatasetBody dataset) 201), st') →
  table st' = rest ++ [dataset]
  ∧ last_pk st' = last_pk st + 1 ∧ pk dataset = last_pk st + 1
  ∧ uploaded_at dataset = now ∧ is_Some (file dataset)
  ∧ (∀ storage_name, file oldest = Some storage_name →
       media st' !! storage_name = None).
Proof.
  intros Htable Hfull Hrest Hnow Hpk Hpost.
  apply post_created_inv in Hpost as (csv_file & s & _ & Hd & Hrun).
  assert (head (order_by by_uploaded_at (table st ++ [dataset])) = Some oldest) as Hhead.
  { rewrite Htable. simpl app. apply order_by_head_oldest.
    apply Forall_app. split.
    - revert Hrest. apply List.Forall_impl. tauto.
    - constructor; [|constructor]. by subst dataset. }
  rewrite (cleanup_one_over _ oldest) in Hrun.
  2:{ simpl. rewrite length_app, Hfull. done. }
  2:{ exact Hhead. }
  assert (filter (λ r, pk r ≠ pk oldest) (table st ++ [dataset]) = rest ++ [dataset])
    as Hfilter.
  { rewrite Htable. simpl app. rewrite filter_cons, decide_False by tauto.
    rewrite list.filter_app. f_equal.
    - apply filter_all. revert Hrest. apply List.Forall_impl. tauto.
    - rewrite filter_cons, decide_True by (subst dataset; simpl; congruence). done. }
  unfold evict in Hrun. simpl in Hrun. rewrite Hfilter in Hrun.
  simplify_eq. simpl.
  split_and!; [done..|].
  intros k Hk. rewrite Hk. apply lookup_delete_eq.
Qed.

(** C5. Seven successful uploads into an empty store at strictly increasing
    clock readings.  The first five fill the store; the sixth evicts the
    first dataset and the seventh the second, one dataset (the oldest) per
    pass, together with its file.  Afterwards the history lists the
    datasets of the third to seventh upload, most recent first, and a
    download of the first or the second dataset is answered 404. *)
Theorem seven_uploads_keep_last_five
    st0 t1 t2 t3 t4 t5 t6 t7 q1 q2 q3 q4 q5 q6 q7
    d1 d2 d3 d4 d5 d6 d7 st1 st2 st3 st4 st5 st6 st7 :
  table st0 = [] →
  t1 < t2 ∧ t2 < t3 ∧ t3 < t4 ∧ t4 < t5 ∧ t5 < t6 ∧ t6 < t7 →
  UploadCSV_post mean64 read_csv t1 q1 st0 = (Ok (mkResponse (DatasetBody d1) 201), st1) →
  UploadCSV_post mean64 read_csv t2 q2 st1 = (Ok (mkResponse (DatasetBody d2) 201), st2) →
  UploadCSV_post mean64 read_csv t3 q3 st2 = (Ok (mkResponse (DatasetBody d3) 201), st3) →
  UploadCSV_post mean64 read_csv t4 q4 st3 = (Ok (mkResponse (DatasetBody d4) 201), st4) →
  UploadCSV_post mean64 read_csv t5 q5 st4 = (Ok (mkResponse (DatasetBody d5) 201), st5) →
  UploadCSV_post mean64 read_csv t6 q6 st5 = (Ok (mkResponse (DatasetBody d6) 201), st6) →
  UploadCSV_post mean64 read_csv t7 q7 st6 = (Ok (mkResponse (DatasetBody d7) 201), st7) →
  uploaded_at <$> [d1; d2; d3; d4; d5; d6; d7] = [t1; t2; t3; t4; t5; t6; t7]
  ∧ table st5 = [d1; d2; d3; d4; d5]
  ∧ table st6 = [d2; d3; d4; d5; d6]
  ∧ table st7 = [d3; d4; d5; d6; d7]
  ∧ HistoryList_get st7 = (Ok (mkResponse (HistoryBody [d7; d6; d5; d4; d3]) 200), st7)
  ∧ DatasetDownload_get (pk d1) st7
    = (Ok (mkResponse (ErrorBody "Dataset not found") 404), st7)
  ∧ DatasetDownload_get (pk d2) st7
    = (Ok (mkResponse (ErrorBody "Dataset not found") 404), st7)
  ∧ ∃ file1 file2,
      file d1 = Some file1 ∧ media st6 !! file1 = None
      ∧ file d2 = Some file2 ∧ media st7 !! file2 = None.
Proof.
  intros Hempty Ht H1 H2 H3 H4 H5 H6 H7.
  apply post_created_room in H1 as (T1 & S1 & P1 & U1 & [f1 F1]);
    [|rewrite Hempty; simpl; unfold MAX_DATASETS; lia].
  rewrite Hempty in T1. simpl in T1.
  apply post_created_room in H2 as (T2 & S2 & P2 & U2 & [f2 F2]);
    [|rewrite T1; simpl; unfold MAX_DATASETS; lia].
  rewrite T1 in T2. simpl in T2.
  apply post_created_room in H3 as (T3 & S3 & P3 & U3 & _);
    [|rewrite T2; simpl; unfold MAX_DATASETS; lia].
  rewrite T2 in T3. simpl in T3.
  apply post_created_room in H4 as (T4 & S4 & P4 & U4 & _);
    [|rewrite T3; simpl; unfold MAX_DATASETS; lia].
  rewrite T3 in T4. simpl in T4.
  apply post_created_room in H5 as (T5 & S5 & P5 & U5 & _);
    [|rewrite T4; simpl; unfold MAX_DATASETS; lia].
  rewrite T4 in T5. simpl in T5.
  apply (post_created_full _ _ _ _ _ d1 [d2; d3; d4; d5]) in H6
    as (T6 & S6 & P6 & U6 & _ & M6);
    [| done | by rewrite T5 | repeat constructor; lia | lia | lia].
  simpl in T6.
  apply (post_created_full _ _ _ _ _ d2 [d3; d4; d5; d6]) in H7
    as (T7 & S7 & P7 & U7 & _ & M7);
    [| done | by rewrite T6 | repeat constructor; lia | lia | lia].
  simpl in T7.
  split_and!; [by simpl; congruence | done | done | done | | | |].
  - unfold HistoryList_get, mbind, objects_all_order_by_desc, mret.
    rewrite T7, order_by_desc_reverse; [done|].
    repeat constructor; lia.
  - unfold DatasetDownload_get, try_except, mbind, objects_get. rewrite T7.
    repeat (rewrite filter_cons, decide_False by lia). done.
  - unfold DatasetDownload_get, try_except, mbind, objects_get. rewrite T7.
    repeat (rewrite filter_cons, decide_False by lia). done.
  - exists f1, f2. split_and!; [done | by apply M6 | done | by apply M7].
Qed.

End Properties.

(** * The theorems at concrete inputs *)

(** Equations between concrete responses and stores are decided by
    evaluation. *)
Ltac by_evaluation := apply (bool_decide_unpack _); vm_compute; exact I.

Lemma upload_keeps_at_most_MAX_DATASETS_witness :
  (length (table empty_store) ≤ MAX_DATASETS)%nat
  ∧ Forall (λ r, (length (table r.2) ≤ 5)%nat)
      (uploads mean_Qc (parsed_as pump_valve) seven_calls empty_store).
Proof.
  assert (length (table empty_store) ≤ MAX_DATASETS)%nat as Hle
    by (simpl; unfold MAX_DATASETS; lia).
  split; [exact Hle|].
  exact (upload_keeps_at_most_MAX_DATASETS mean_Qc (parsed_as pump_valve)
           seven_calls empty_store Hle).
Defined.

Lemma cleanup_idempotent_witness :
  ∃ st1,
    _cleanup_old_datasets seven_rows = (Ok (), st1)
    ∧ _cleanup_old_datasets st1 = (Ok (), st1)
    ∧ ((length (table seven_rows) ≤ MAX_DATASETS)%nat → st1 = seven_rows).
Proof. exact (cleanup_idempotent seven_rows). Defined.

Lemma post_without_file_witness :
  FILES no_upload !! "file"%string = None
  ∧ UploadCSV_post mean_Qc (parsed_as pump_valve) 1 no_upload empty_store
    = (Ok (mkResponse (ErrorBody "No file provided") 400), empty_store).
Proof.
  assert (FILES no_upload !! "file"%string = None) as Hnone by reflexivity.
  split; [exact Hnone|].
  exact (post_without_file mean_Qc (parsed_as pump_valve) 1 no_upload empty_store Hnone).
Defined.

Lemma schema_error_iff_column_missing_witness :
  let r := UploadCSV_post mean_Qc (parsed_as lowercase_type) 1
             (upload_of "data.csv") empty_store in
  is_schema_error r.1
  ∧ r = (Ok (mkResponse
               (MissingColumnsBody "CSV missing required columns"
                  (elements REQUIRED_COLUMNS) (columns lowercase_type)) 400),
         empty_store).
Proof.
  intros r.
  destruct (schema_error_iff_column_missing mean_Qc (parsed_as lowercase_type) 1
              (upload_of "data.csv") empty_store (mkUploadedFile "data.csv" payload)
              lowercase_type eq_refl eq_refl eq_refl) as (Hiff & Hresponse & _).
  assert (is_schema_error r.1) as Herr.
  { apply Hiff. exists "Type"%string. split.
    - unfold header. apply elem_of_cons. right. by left.
    - apply (bool_decide_unpack _). by vm_compute. }
  split; [exact Herr | exact (Hresponse Herr)].
Defined.

Lemma summary_counts_witness :
  _calculate_summary mean_Qc pump_valve = Ok (summary_of pump_valve)
  ∧ total_count (summary_of pump_valve) = 2%nat
  ∧ sum_values (type_distribution (summary_of pump_valve)) = 2%nat.
Proof.
  assert (_calculate_summary mean_Qc pump_valve = Ok (summary_of pump_valve)) as Hs
    by by_evaluation.
  destruct (summary_counts mean_Qc pump_valve (summary_of pump_valve) Hs)
    as (Htotal & types & Htypes & _ & Hall).
  split_and!; [exact Hs | exact Htotal |].
  rewrite Hall; [exact Htotal|].
  assert (types = [Str "Pump"; Str "Valve"]) as ->
    by (vm_compute in Htypes; congruence).
  apply (bool_decide_unpack _). by vm_compute.
Defined.

Lemma header_only_table_is_not_stored_witness :
  ∃ s msg st',
    _calculate_summary mean_Qc header_only = Ok s
    ∧ total_count s = 0%nat
    ∧ type_distribution s = ∅
    ∧ (∀ c, c ∈ numeric_columns → averages s !! c = Some None)
    ∧ json_valid s = false
    ∧ UploadCSV_post mean_Qc (parsed_as header_only) 1 (upload_of "data.csv") empty_store
      = (Ok (mkResponse (ErrorBody ("Processing error: " +:+ msg)) 500), st')
    ∧ table st' = table empty_store
    ∧ last_pk st' = last_pk empty_store.
Proof.
  apply (header_only_table_is_not_stored mean_Qc (parsed_as header_only) 1
           (upload_of "data.csv") empty_store (mkUploadedFile "data.csv" payload)
           header_only eq_refl eq_refl eq_refl).
  - intros c Hc. exact Hc.
  - reflexivity.
Defined.

Lemma text_in_numeric_column_is_processing_error_witness :
  ∃ msg,
    UploadCSV_post mean_Qc (parsed_as text_flowrate) 1 (upload_of "data.csv") empty_store
    = (Ok (mkResponse (ErrorBody ("Processing error: " +:+ msg)) 500), empty_store).
Proof.
  apply (text_in_numeric_column_is_processing_error mean_Qc (parsed_as text_flowrate) 1
           (upload_of "data.csv") empty_store (mkUploadedFile "data.csv" payload)
           text_flowrate "Flowrate" [Str "55"; Str "abc"] "abc"
           eq_refl eq_refl eq_refl).
  - intros c Hc. exact Hc.
  - by left.
  - reflexivity.
  - right. by left.
Defined.

Lemma latest_summary_witness :
  UploadCSV_post mean_Qc (parsed_as pump_valve) 1 (upload_of "data.csv") empty_store
  = (Ok (mkResponse (DatasetBody (uploaded 1 1 "data.csv")) 201), store_after 1 1)
  ∧ objects_latest (store_after 1 1) = (Ok (uploaded 1 1 "data.csv"), store_after 1 1)
  ∧ table (store_after 1 1) = [uploaded 1 1 "data.csv"].
Proof.
  assert (UploadCSV_post mean_Qc (parsed_as pump_valve) 1 (upload_of "data.csv") empty_store
          = (Ok (mkResponse (DatasetBody (uploaded 1 1 "data.csv")) 201), store_after 1 1))
    as Hpost by by_evaluation.
  split; [exact Hpost|].
  destruct (latest_summary mean_Qc (parsed_as pump_valve) empty_store) as (_ & _ & Hone).
  exact (Hone 1 (upload_of "data.csv") _ _ eq_refl Hpost).
Defined.

Lemma seven_uploads_keep_last_five_witness :
  let d := λ i, uploaded i i "data.csv" in
  after_uploads seven_calls = store_after 3 7
  ∧ table (store_after 2 6) = [d 2; d 3; d 4; d 5; d 6]
  ∧ table (store_after 3 7) = [d 3; d 4; d 5; d 6; d 7]
  ∧ HistoryList_get (store_after 3 7)
    = (Ok (mkResponse (HistoryBody [d 7; d 6; d 5; d 4; d 3]) 200), store_after 3 7)
  ∧ DatasetDownload_get (pk (d 1)) (store_after 3 7)
    = (Ok (mkResponse (ErrorBody "Dataset not found") 404), store_after 3 7)
  ∧ DatasetDownload_get (pk (d 2)) (store_after 3 7)
    = (Ok (mkResponse (ErrorBody "Dataset not found") 404), store_after 3 7).
Proof.
  intros d.
  pose (q := upload_of "data.csv").
  pose (post := UploadCSV_post mean_Qc (parsed_as pump_valve)).
  assert (post 1 q empty_store = (Ok (mkResponse (DatasetBody (d 1)) 201), store_after 1 1))
    as H1 by by_evaluation.
  assert (post 2 q (store_after 1 1)
          = (Ok (mkResponse (DatasetBody (d 2)) 201), store_after 1 2))
    as H2 by by_evaluation.
  assert (post 3 q (store_after 1 2)
          = (Ok (mkResponse (DatasetBody (d 3)) 201), store_after 1 3))
    as H3 by by_evaluation.
  assert (post 4 q (store_after 1 3)
          = (Ok (mkResponse (DatasetBody (d 4)) 201), store_after 1 4))
    as H4 by by_evaluation.
  assert (post 5 q (store_after 1 4)
          = (Ok (mkResponse (DatasetBody (d 5)) 201), store_after 1 5))
    as H5 by by_evaluation.
  assert (post 6 q (store_after 1 5)
          = (Ok (mkResponse (DatasetBody (d 6)) 201), store_after 2 6))
    as H6 by by_evaluation.
  assert (post 7 q (store_after 2 6)
          = (Ok (mkResponse (DatasetBody (d 7)) 201), store_after 3 7))
    as H7 by by_evaluation.
  destruct (seven_uploads_keep_last_five mean_Qc (parsed_as pump_valve)
              empty_store 1 2 3 4 5 6 7 q q q q q q q
              (d 1) (d 2) (d 3) (d 4) (d 5) (d 6) (d 7)
              (store_after 1 1) (store_after 1 2) (store_after 1 3) (store_after 1 4)
              (store_after 1 5) (store_after 2 6) (store_after 3 7)
              eq_refl ltac:(lia) H1 H2 H3 H4 H5 H6 H7)
    as (_ & _ & T6 & T7 & Hhistory & Hget1 & Hget2 & _).
  split_and!; [by_evaluation | exact T6 | exact T7 | exact Hhistory
               | exact Hget1 | exact Hget2].
Defined.

(** * Where the code departs from the specification's wording *)

(** C2, counterexample.  A table with the required columns and two rows, one
    with its [Type] cell missing: the summary counts two rows, and the counts
    of [type_distribution] add up to one. *)
Lemma type_distribution_skips_missing_type :
  (∀ c, c ∈ header → c ∈ columns missing_type)
  ∧ _calculate_summary mean_Qc missing_type = Ok (summary_of missing_type)
  ∧ total_count (summary_of missing_type) = 2%nat
  ∧ sum_values (type_distribution (summary_of missing_type)) = 1%nat.
Proof.
  split; [intros c Hc; exact Hc|].
  split_and!; by_evaluation.
Qed.

(** C10, counterexample.  A file with the header line and no data rows,
    uploaded into the empty store: the answer is the catch-all error with
    the message of the database and status 500, and the table is still
    empty; only the saved file is in the storage. *)
Lemma header_only_upload_creates_no_dataset :
  (∀ c, c ∈ header → c ∈ columns header_only)
  ∧ rows header_only = []
  ∧ UploadCSV_post mean_Qc (parsed_as header_only) 1 (upload_of "data.csv") empty_store
    = (Ok (mkResponse (ErrorBody ("Processing error: " +:+ integrity_error_text)) 500),
       store_with_orphan)
  ∧ table store_with_orphan = [].
Proof.
  split; [intros c Hc; exact Hc|].
  split_and!; [reflexivity | by_evaluation | reflexivity].
Qed.

(** C4, counterexample.  The second row has the text "abc" in [Flowrate].
    The response is the catch-all processing error with the library's
    message: it names neither the column nor the row. *)
Lemma text_cell_error_names_no_row_or_column :
  let r := mkResponse
             (ErrorBody "Processing error: Could not convert ['55abc'] to numeric") 500 in
  UploadCSV_post mean_Qc (parsed_as text_flowrate) 1 (upload_of "data.csv") empty_store
  = (Ok r, empty_store)
  ∧ reports r "Flowrate" = false
  ∧ reports r "1" = false.
Proof. intros r. split_and!; by_evaluation. Qed.

(** C6, counterexample.  After two uploads at the same clock reading the
    history lists the dataset with key 1 before the one with key 2: equal
    upload times are not listed higher key first. *)
Lemma history_ties_are_not_by_descending_key :
  let d1 := uploaded 1 7 "a.csv" in
  let d2 := uploaded 2 7 "b.csv" in
  HistoryList_get (after_uploads same_time_calls)
  = (Ok (mkResponse (HistoryBody [d1; d2]) 200), after_uploads same_time_calls)
  ∧ uploaded_at d1 = uploaded_at d2
  ∧ pk d1 < pk d2
  ∧ ¬ Sorted recent_then_key_first [d1; d2].
Proof.
  intros d1 d2. split_and!.
  - by_evaluation.
  - reflexivity.
  - reflexivity.
  - intros Hsorted. apply Sorted_inv in Hsorted as [_ Hhd].
    apply HdRel_inv in Hhd. vm_compute in Hhd.
    destruct Hhd as [?|[_ ?]]; discriminate.
Qed.

(** C7, counterexample.  In the same store the latest dataset, by the view's
    query, is the one with key 1, although the dataset with key 2 has the
    same upload time and the higher key. *)
Lemma latest_tie_is_not_highest_key :
  let d1 := uploaded 1 7 "a.csv" in
  let d2 := uploaded 2 7 "b.csv" in
  objects_latest (after_uploads same_time_calls)
  = (Ok d1, after_uploads same_time_calls)
  ∧ table (after_uploads same_time_calls) = [d1; d2]
  ∧ uploaded_at d2 = uploaded_at d1
  ∧ pk d1 < pk d2.
Proof.
  intros d1 d2. split_and!.
  - by_evaluation.
  - by_evaluation.
  - reflexivity.
  - reflexivity.
Qed.

(** * Further properties of the code *)

Section Behaviour.

Context {float : Type} `{Countable float} `{!Libraries (float := float)}.
Variable mean64 : list float → float.
Variable read_csv : bytes → result (DataFrame (float := float)).

Implicit Types (st : Store (float := float)) (d : Dataset (float := float)).
Implicit Types (df : DataFrame (float := float)) (col : list (Cell (float := float))).
Implicit Types (l : list (Dataset (float := float))) (k : Label (float := float)).

(** ** The aggregator *)

Lemma getitem_Ok_columns df c col : getitem df c = Ok col → c ∈ columns df.
Proof.
  unfold getitem. destruct (list_find _ _) as [[i c']|] eqn:Hfind; [|done].
  intros _. apply list_find_Some in Hfind as (Hi & -> & _).
  by eapply list_elem_of_lookup_2.
Qed.

Lemma getitem_missing df c :
  c ∉ columns df → getitem df c = Raise (KeyError (repr c)).
Proof.
  intros Hc. destruct (getitem df c) as [col|e] eqn:Hget.
  - by apply getitem_Ok_columns in Hget.
  - unfold getitem in Hget. by destruct (list_find _ _) as [[i c']|]; simplify_eq.
Qed.

(** The summary, written out, of a table whose four columns are there and
    whose numeric columns hold no text. *)
Lemma calculate_summary_value df flowrate pressure temperature types :
  getitem df "Flowrate" = Ok flowrate →
  getitem df "Pressure" = Ok pressure →
  getitem df "Temperature" = Ok temperature →
  getitem df "Type" = Ok types →
  texts flowrate = [] → texts pressure = [] → texts temperature = [] →
  _calculate_summary mean64 df
  = Ok (mkSummary (length (rows df))
          (list_to_map [("Flowrate"%string, series_mean mean64 flowrate);
                        ("Pressure"%string, series_mean mean64 pressure);
                        ("Temperature"%string, series_mean mean64 temperature)])
          (value_counts types)).
Proof.
  intros Hfl Hpr Hte Hty Tfl Tpr Tte.
  unfold _calculate_summary, getitems, numeric_columns. simpl.
  rewrite Hfl, Hpr, Hte. simpl.
  rewrite (mean_to_dict_numeric mean64), decide_True by done. simpl.
  rewrite Hty. done.
Qed.

(** Conversely, a returned summary tells that the columns were there and
    free of text. *)
Lemma calculate_summary_inv df s :
  _calculate_summary mean64 df = Ok s →
  ∃ flowrate pressure temperature types,
    getitem df "Flowrate" = Ok flowrate
    ∧ getitem df "Pressure" = Ok pressure
    ∧ getitem df "Temperature" = Ok temperature
    ∧ getitem df "Type" = Ok types
    ∧ texts flowrate = [] ∧ texts pressure = [] ∧ texts temperature = [].
Proof.
  unfold _calculate_summary, getitems, numeric_columns. simpl.
  destruct (getitem df "Flowrate") as [fl|]; [simpl|done].
  destruct (getitem df "Pressure") as [pr|]; [simpl|done].
  destruct (getitem df "Temperature") as [te|]; [simpl|done].
  rewrite (mean_to_dict_numeric mean64).
  case_decide as Htexts; [simpl|done].
  destruct (getitem df "Type") as [ty|]; [simpl|done].
  intros _. destruct Htexts as (? & ? & ?).
  exists fl, pr, te, ty. by split_and!.
Qed.

(** A returned summary tells that no numeric column holds a text. *)
Lemma calculate_summary_no_text df s c col :
  _calculate_summary mean64 df = Ok s →
  c ∈ numeric_columns → getitem df c = Ok col → texts col = [].
Proof.
  intros Hs Hc Hcol.
  apply calculate_summary_inv in Hs
    as (fl & pr & te & ty & Hfl & Hpr & Hte & Hty & Tfl & Tpr & Tte).
  unfold numeric_columns in Hc.
  repeat (apply elem_of_cons in Hc as [->|Hc]; [congruence|]).
  by apply not_elem_of_nil in Hc.
Qed.

(** A table with the four columns and no text in the numeric ones gets a
    summary. *)
Lemma calculate_summary_returns df :
  (∀ c, c ∈ numeric_columns ++ ["Type"%string] → c ∈ columns df) →
  (∀ c col, c ∈ numeric_columns → getitem df c = Ok col → texts col = []) →
  ∃ s, _calculate_summary mean64 df = Ok s.
Proof.
  intros Hcols Htexts.
  destruct (getitem_present df "Flowrate") as [i1 H1];
    [apply Hcols; unfold numeric_columns; simpl; rewrite !elem_of_cons; tauto|].
  destruct (getitem_present df "Pressure") as [i2 H2];
    [apply Hcols; unfold numeric_columns; simpl; rewrite !elem_of_cons; tauto|].
  destruct (getitem_present df "Temperature") as [i3 H3];
    [apply Hcols; unfold numeric_columns; simpl; rewrite !elem_of_cons; tauto|].
  destruct (getitem_present df "Type") as [i4 H4];
    [apply Hcols; unfold numeric_columns; simpl; rewrite !elem_of_cons; tauto|].
  eexists. eapply calculate_summary_value; try done.
  - eapply Htexts; [|done]. unfold numeric_columns. rewrite !elem_of_cons. tauto.
  - eapply Htexts; [|done]. unfold numeric_columns. rewrite !elem_of_cons. tauto.
  - eapply Htexts; [|done]. unfold numeric_columns. rewrite !elem_of_cons. tauto.
Qed.

(** X1. The aggregator returns a summary exactly when the four columns it
    reads are among the table's columns and none of the three numeric
    columns holds a text; the "Equipment Name" column plays no part. *)
Theorem calculate_summary_Ok_iff df :
  (∃ s, _calculate_summary mean64 df = Ok s)
  ↔ (∀ c, c ∈ numeric_columns ++ ["Type"%string] → c ∈ columns df)
    ∧ (∀ c col, c ∈ numeric_columns → getitem df c = Ok col → texts col = []).
Proof.
  split.
  - intros [s Hs]. split.
    + apply calculate_summary_inv in Hs
        as (fl & pr & te & ty & Hfl & Hpr & Hte & Hty & _).
      intros c Hc. unfold numeric_columns in Hc. simpl in Hc.
      repeat (apply elem_of_cons in Hc as [->|Hc];
              [by eapply getitem_Ok_columns|]).
      by apply not_elem_of_nil in Hc.
    + intros c col. by apply (calculate_summary_no_text df s).
  - intros [Hcols Htexts]. by apply calculate_summary_returns.
Qed.





Lemma occurrences_cons k c col :
  occurrences k (c :: col)
  = if decide (label c = Some k) then S (occurrences k col) else occurrences k col.
Proof. unfold occurrences. rewrite filter_cons. by case_decide. Qed.

Lemma value_counts_lookup col k :
  value_counts col !! k
  = if decide (occurrences k col = 0%nat) then None else Some (occurrences k col).
Proof.
  induction col as [|c col IH]; [done|].
  rewrite occurrences_cons. simpl.
  destruct (label c) as [k'|] eqn:Hc.
  - destruct (decide (k' = k)) as [->|Hne].
    + rewrite lookup_insert_eq, IH, (decide_True (P := Some k = Some k)) by done.
      rewrite (decide_False (P := S _ = 0%nat)) by lia.
      case_decide as Hn; simpl; [by rewrite Hn | done].
    + rewrite lookup_insert_ne by done.
      rewrite (decide_False (P := Some k' = Some k)) by congruence. done.
  - rewrite (decide_False (P := None = Some k)) by done. done.
Qed.

(** X3. [type_distribution] has, for each value of the [Type] column, the
    number of rows with exactly that value, and has no entry for a value
    that does not occur (nor for the missing cells). *)
Theorem type_distribution_counts_rows df s :
  _calculate_summary mean64 df = Ok s →
  ∃ types,
    getitem df "Type" = Ok types
    ∧ ∀ k n, type_distribution s !! k = Some n
             ↔ n = occurrences k types ∧ (0 < n)%nat.
Proof.
  intros Hs. apply calculate_summary_Ok in Hs as (_ & types & Htypes & ->).
  exists types. split; [done|]. intros k n.
  rewrite value_counts_lookup. case_decide as Hn; split.
  - done.
  - intros [-> ?]. lia.
  - intros [= <-]. split; [done | lia].
  - by intros [-> _].
Qed.

Lemma occurrences_perm k col col' :
  col ≡ₚ col' → occurrences k col = occurrences k col'.
Proof. intros Hperm. unfold occurrences. by rewrite Hperm. Qed.

Lemma value_counts_perm col col' :
  col ≡ₚ col' → value_counts col = value_counts col'.
Proof.
  intros Hperm. apply map_eq. intros k.
  by rewrite !value_counts_lookup, (occurrences_perm k col col' Hperm).
Qed.

Lemma getitem_perm df df' c col :
  columns df = columns df' → rows df ≡ₚ rows df' →
  getitem df c = Ok col →
  ∃ col', getitem df' c = Ok col' ∧ col ≡ₚ col'.
Proof.
  intros Hcols Hrows. unfold getitem. rewrite <- Hcols.
  destruct (list_find _ _) as [[i c']|]; [|done].
  intros [= <-]. eexists. split; [done|]. by rewrite Hrows.
Qed.

Lemma texts_perm col col' : col ≡ₚ col' → texts col = [] → texts col' = [].
Proof.
  intros Hperm Hnil. unfold texts in *.
  apply Permutation_nil_r. rewrite <- Hnil. by rewrite Hperm.
Qed.

(** X4. The order of the rows does not matter for the count and the
    distribution: a table with the same columns and the same rows in another
    order gets a summary too, with the same [total_count] and the same
    [type_distribution]. *)
Theorem summary_counts_ignore_row_order df df' s :
  columns df = columns df' → rows df ≡ₚ rows df' →
  _calculate_summary mean64 df = Ok s →
  ∃ s', _calculate_summary mean64 df' = Ok s'
    ∧ total_count s' = total_count s
    ∧ type_distribution s' = type_distribution s.
Proof.
  intros Hcols Hrows Hs. pose proof Hs as Hinv.
  apply calculate_summary_inv in Hinv
    as (fl & pr & te & ty & Hfl & Hpr & Hte & Hty & Tfl & Tpr & Tte).
  rewrite (calculate_summary_value df fl pr te ty) in Hs by done.
  destruct (getitem_perm df df' _ _ Hcols Hrows Hfl) as (fl' & Hfl' & Pfl).
  destruct (getitem_perm df df' _ _ Hcols Hrows Hpr) as (pr' & Hpr' & Ppr).
  destruct (getitem_perm df df' _ _ Hcols Hrows Hte) as (te' & Hte' & Pte).
  destruct (getitem_perm df df' _ _ Hcols Hrows Hty) as (ty' & Hty' & Pty).
  eexists. split.
  - apply (calculate_summary_value df' fl' pr' te' ty'); try done.
    + by eapply texts_perm.
    + by eapply texts_perm.
    + by eapply texts_perm.
  - simplify_eq. simpl. split.
    + by rewrite Hrows.
    + symmetry. by apply value_counts_perm.
Qed.

(** ** The upload view *)

(** The three ways the upload view answers: with the created dataset; with
    an error and the store as it was; with the catch-all error after the
    database has refused the row, the file saved for it left in the
    storage. *)
Lemma post_cases now request st :
  (∃ dataset st',
     UploadCSV_post mean64 read_csv now request st
     = (Ok (mkResponse (DatasetBody dataset) 201), st'))
  ∨ (∃ response,
       UploadCSV_post mean64 read_csv now request st = (Ok response, st)
       ∧ (status response = 400 ∨ status response = 500)%nat
       ∧ ∃ text, data response = ErrorBody text
                 ∨ ∃ required found,
                     data response = MissingColumnsBody text required found)
  ∨ (∃ csv_file,
       FILES request !! "file"%string = Some csv_file
       ∧ UploadCSV_post mean64 read_csv now request st
         = (Ok (mkResponse
                  (ErrorBody ("Processing error: " +:+ integrity_error_text)) 500),
            mkStore (table st) (last_pk st)
              (<[fresh (dom (media st)) := content csv_file]> (media st)))).
Proof.
  assert (∀ e, ∃ response,
            post_except e st = (Ok response, st)
            ∧ (status response = 400 ∨ status response = 500)%nat
            ∧ ∃ text, data response = ErrorBody text
                      ∨ ∃ required found,
                          data response = MissingColumnsBody text required found)
    as Hexcept.
  { intros e. destruct e; eexists; (split; [done|]); simpl; (split; [tauto|]);
      eexists; by left. }
  destruct (FILES request !! "file"%string) as [csv_file|] eqn:Hfile.
  2:{ right. left. unfold UploadCSV_post. rewrite Hfile. eexists.
      split; [done|]. simpl. split; [tauto|]. eexists. by left. }
  destruct (file_bool csv_file) eqn:Hbool.
  2:{ right. left. unfold UploadCSV_post. rewrite Hfile, Hbool. eexists.
      split; [done|]. simpl. split; [tauto|]. eexists. by left. }
  destruct (read_csv (content csv_file)) as [df|e] eqn:Hread.
  - destruct (decide (REQUIRED_COLUMNS ⊆ list_to_set (columns df))) as [Hsub|Hsub].
    2:{ right. left.
        rewrite (post_parsed mean64 read_csv _ _ _ _ _ Hfile Hbool Hread).
        rewrite decide_False by done. eexists. split; [done|]. simpl.
        split; [tauto|]. eexists. right. by eexists _, _. }
    destruct (_calculate_summary mean64 df) as [s|e] eqn:Hs.
    + destruct (storage_accepts (name csv_file)) eqn:Hname.
      2:{ right. left.
          rewrite (post_bad_name mean64 read_csv now request st csv_file df s
                     Hfile Hbool Hread Hsub Hs Hname).
          eexists. split; [done|]. simpl. split; [tauto|]. eexists. by left. }
      destruct (json_valid s) eqn:Hvalid.
      * left.
        destruct (post_valid mean64 read_csv now request st csv_file df s
                    Hfile Hbool Hread Hsub Hs Hname Hvalid) as (st' & _ & Heq).
        by eexists _, _.
      * right. right. exists csv_file. split; [done|].
        by apply (post_refused mean64 read_csv now request st csv_file df s).
    + right. left.
      rewrite (post_parsed mean64 read_csv _ _ _ _ _ Hfile Hbool Hread).
      rewrite decide_True, Hs by done. apply Hexcept.
  - right. left. unfold UploadCSV_post. rewrite Hfile, Hbool.
    unfold try_except, mbind, lift. rewrite Hread. apply Hexcept.
Qed.

(** X5. No exception leaves the upload view: every request that its parsers
    have read is answered, with status 201, 400 or 500.  An answer 400 leaves the store exactly as it
    was.  An answer 500 leaves the table and the key counter as they were,
    and the storage either as it was or with the uploaded file added under a
    new name: the file is saved before the database refuses the row, and is
    not removed. *)
Theorem post_always_answers now request st :
  ∃ response st',
    UploadCSV_post mean64 read_csv now request st = (Ok response, st')
    ∧ (status response = 201 ∨ status response = 400 ∨ status response = 500)%nat
    ∧ (status response = 400%nat → st' = st)
    ∧ (status response ≠ 201%nat →
         table st' = table st
         ∧ last_pk st' = last_pk st
         ∧ (st' = st
            ∨ ∃ csv_file,
                FILES request !! "file"%string = Some csv_file
                ∧ media st'
                  = <[fresh (dom (media st)) := content csv_file]> (media st))).
Proof.
  destruct (post_cases now request st)
    as [(dataset & st' & Heq) | [(response & Heq & Hstatus & _) | (csv_file & Hfile & Heq)]].
  - eexists _, _. split; [exact Heq|]. simpl. split_and!; [tauto | done | done].
  - exists response, st. split; [exact Heq|]. split_and!; [tauto | done |].
    intros _. split_and!; [done | done | by left].
  - eexists _, _. split; [exact Heq|]. simpl. split_and!; [tauto | done |].
    intros _. split_and!; [done | done |]. right. by exists csv_file.
Qed.

(** X6. When the parser raises, nothing is stored; an empty file is answered
    400 'CSV file is empty', an ill-formed one 400 'Invalid CSV format: ...'
    with the parser's message, and any other exception 500
    'Processing error: ...'. *)
Theorem post_unreadable_file now request st csv_file e :
  FILES request !! "file"%string = Some csv_file →
  file_bool csv_file = true →
  read_csv (content csv_file) = Raise e →
  UploadCSV_post mean64 read_csv now request st
  = (Ok (match e with
         | EmptyDataError _ => mkResponse (ErrorBody "CSV file is empty") 400
         | ParserError msg => mkResponse (ErrorBody ("Invalid CSV format: " +:+ msg)) 400
         | _ => mkResponse (ErrorBody ("Processing error: " +:+ str e)) 500
         end), st).
Proof.
  intros Hfile Hbool Hread. unfold UploadCSV_post. rewrite Hfile, Hbool.
  unfold try_except, mbind, lift. rewrite Hread. by destruct e.
Qed.

(** What a 201 response tells, in full. *)
Lemma post_created_inv_full now request st dataset st' :
  UploadCSV_post mean64 read_csv now request st
  = (Ok (mkResponse (DatasetBody dataset) 201), st') →
  ∃ csv_file df s,
    FILES request !! "file"%string = Some csv_file
    ∧ file_bool csv_file = true
    ∧ read_csv (content csv_file) = Ok df
    ∧ (∀ c, c ∈ header → c ∈ columns df)
    ∧ _calculate_summary mean64 df = Ok s
    ∧ dataset = mkDataset (last_pk st + 1) (Some (fresh (dom (media st)))) now (Some s)
                  (name csv_file) ""
    ∧ _cleanup_old_datasets
        (mkStore (table st ++ [dataset]) (last_pk st + 1)
           (<[fresh (dom (media st)) := content csv_file]> (media st)))
      = (Ok (), st')
    ∧ json_valid s = true
    ∧ storage_accepts (name csv_file) = true.
Proof.
  intros Hpost.
  destruct (FILES request !! "file"%string) as [csv_file|] eqn:Hfile;
    [|unfold UploadCSV_post in Hpost; by rewrite Hfile in Hpost].
  destruct (file_bool csv_file) eqn:Hbool;
    [|unfold UploadCSV_post in Hpost; by rewrite Hfile, Hbool in Hpost].
  destruct (read_csv (content csv_file)) as [df|e] eqn:Hread.
  - destruct (decide (REQUIRED_COLUMNS ⊆ list_to_set (columns df))) as [Hsub|Hsub].
    2:{ by rewrite (post_parsed mean64 read_csv _ _ _ _ _ Hfile Hbool Hread),
          decide_False in Hpost. }
    destruct (_calculate_summary mean64 df) as [s|e] eqn:Hs.
    + destruct (storage_accepts (name csv_file)) eqn:Hname.
      2:{ by rewrite (post_bad_name mean64 read_csv now request st csv_file df s
                        Hfile Hbool Hread Hsub Hs Hname) in Hpost. }
      destruct (json_valid s) eqn:Hvalid.
      * destruct (post_valid mean64 read_csv now request st csv_file df s
                    Hfile Hbool Hread Hsub Hs Hname Hvalid) as (st1 & Hrun & Heq).
        rewrite Heq in Hpost. simplify_eq.
        exists csv_file, df, s. split_and!; try done. by apply issubset_header.
      * by rewrite (post_refused mean64 read_csv now request st csv_file df s
                      Hfile Hbool Hread Hsub Hs Hname Hvalid) in Hpost.
    + rewrite (post_parsed mean64 read_csv _ _ _ _ _ Hfile Hbool Hread),
        decide_True, Hs in Hpost by done.
      destruct (post_except_unchanged e st) as (? & ? & Heq).
      rewrite Heq in Hpost. done.
  - unfold UploadCSV_post in Hpost. rewrite Hfile, Hbool in Hpost.
    unfold try_except, mbind, lift in Hpost. rewrite Hread in Hpost.
    destruct (post_except_unchanged e st) as (? & ? & Heq).
    rewrite Heq in Hpost. done.
Qed.

(** The entry of [averages] for a numeric column is the mean of the
    column. *)
Lemma calculate_summary_average df s c col :
  _calculate_summary mean64 df = Ok s →
  c ∈ numeric_columns → getitem df c = Ok col →
  averages s !! c = Some (series_mean mean64 col).
Proof.
  intros Hs Hc Hcol. pose proof Hs as Hinv.
  apply calculate_summary_inv in Hinv
    as (fl & pr & te & ty & Hfl & Hpr & Hte & Hty & Tfl & Tpr & Tte).
  rewrite (calculate_summary_value df fl pr te ty) in Hs by done.
  simplify_eq. simpl. unfold numeric_columns in Hc.
  apply elem_of_cons in Hc as [->|Hc]; [rewrite Hfl in Hcol; by simplify_eq|].
  apply elem_of_cons in Hc as [->|Hc]; [rewrite Hpr in Hcol; by simplify_eq|].
  apply elem_of_cons in Hc as [->|Hc]; [rewrite Hte in Hcol; by simplify_eq|].
  by apply not_elem_of_nil in Hc.
Qed.

(** The summary of a table is one the JSON field accepts exactly when each
    numeric column has a number and a finite mean. *)
Lemma calculate_summary_json_valid df s :
  _calculate_summary mean64 df = Ok s →
  json_valid s = true
  ↔ ∀ c col, c ∈ numeric_columns → getitem df c = Ok col →
      numbers col ≠ [] ∧ isfinite (mean64 (numbers col)) = true.
Proof.
  intros Hs. rewrite json_valid_true. split.
  - intros Hvalid c col Hc Hcol.
    pose proof (calculate_summary_average df s c col Hs Hc Hcol) as Havg.
    destruct (Hvalid c _ Havg) as (x & Hx & Hfin).
    unfold series_mean in Hx. destruct (numbers col) as [|y ys]; [done|].
    by simplify_eq.
  - intros Hnum c m Hlook. pose proof Hs as Hinv.
    apply calculate_summary_inv in Hinv
      as (fl & pr & te & ty & Hfl & Hpr & Hte & Hty & _ & _ & _).
    assert (c ∈ numeric_columns) as Hc.
    { destruct (decide (c ∈ numeric_columns)) as [|Hnot]; [done|].
      pose proof Hs as Hval.
      apply calculate_summary_inv in Hval
        as (fl' & pr' & te' & ty' & Hfl' & Hpr' & Hte' & Hty' & Tfl & Tpr & Tte).
      rewrite (calculate_summary_value df fl' pr' te' ty') in Hs by done.
      simplify_eq. simpl in Hlook. unfold numeric_columns in Hnot.
      rewrite !not_elem_of_cons in Hnot. destruct Hnot as (? & ? & ? & _).
      rewrite !lookup_insert_ne in Hlook by done. by rewrite lookup_empty in Hlook. }
    assert (∃ col, getitem df c = Ok col) as [col Hcol].
    { unfold numeric_columns in Hc.
      repeat (apply elem_of_cons in Hc as [->|Hc]; [by eexists|]).
      by apply not_elem_of_nil in Hc. }
    rewrite (calculate_summary_average df s c col Hs Hc Hcol) in Hlook.
    simplify_eq. destruct (Hnum c col Hc Hcol) as [Hne Hfin].
    unfold series_mean. destruct (numbers col) as [|y ys]; [done|]. by eexists.
Qed.

(** X7. An upload is answered 201 with the created dataset exactly when the
    request has a file with a name, the storage can take the name, the file
    parses to a table, the table has the five required columns, and each of
    the three numeric columns holds no text, holds at least one number, and
    has a finite mean. *)
Theorem post_created_iff now request st :
  (∃ dataset st',
     UploadCSV_post mean64 read_csv now request st
     = (Ok (mkResponse (DatasetBody dataset) 201), st'))
  ↔ ∃ csv_file df,
      FILES request !! "file"%string = Some csv_file
      ∧ name csv_file ≠ ""%string
      ∧ storage_accepts (name csv_file) = true
      ∧ read_csv (content csv_file) = Ok df
      ∧ (∀ c, c ∈ header → c ∈ columns df)
      ∧ (∀ c col, c ∈ numeric_columns → getitem df c = Ok col →
           texts col = []
           ∧ numbers col ≠ []
           ∧ isfinite (mean64 (numbers col)) = true).
Proof.
  split.
  - intros (dataset & st' & Hpost).
    apply post_created_inv_full in Hpost
      as (csv_file & df & s & Hfile & Hbool & Hread & Hcols & Hs & _ & _ & Hvalid
          & Hstorage).
    exists csv_file, df. split_and!; try done.
    + unfold file_bool in Hbool. by apply bool_decide_eq_true in Hbool.
    + intros c col Hc Hcol. split.
      * by apply (calculate_summary_no_text df s c col).
      * exact (proj1 (calculate_summary_json_valid df s Hs) Hvalid c col Hc Hcol).
  - intros (csv_file & df & Hfile & Hname & Hstorage & Hread & Hcols & Hnum).
    assert (file_bool csv_file = true) as Hbool
      by (unfold file_bool; by apply bool_decide_eq_true).
    destruct (calculate_summary_returns df) as [s Hs].
    { intros c Hc. apply Hcols.
      unfold numeric_columns in Hc. simpl in Hc. unfold header.
      rewrite !elem_of_cons in Hc. rewrite !elem_of_cons.
      rewrite elem_of_nil in Hc. rewrite elem_of_nil. tauto. }
    { intros c col Hc Hcol. by apply (Hnum c col). }
    assert (json_valid s = true) as Hvalid.
    { apply (calculate_summary_json_valid df s Hs).
      intros c col Hc Hcol. by apply (Hnum c col). }
    destruct (post_valid mean64 read_csv now request st csv_file df s
                Hfile Hbool Hread) as (st' & _ & Heq); [|done..|].
    { by apply issubset_header. }
    by eexists _, _.
Qed.

(** X8. The dataset of a 201 response carries the summary the aggregator
    computes from the parsed file, the name of the uploaded file (never
    empty), the clock reading of the upload, and a primary key one above the
    last one handed out. *)
Theorem post_created_dataset now request st dataset st' :
  UploadCSV_post mean64 read_csv now request st
  = (Ok (mkResponse (DatasetBody dataset) 201), st') →
  ∃ csv_file df s,
    FILES request !! "file"%string = Some csv_file
    ∧ read_csv (content csv_file) = Ok df
    ∧ _calculate_summary mean64 df = Ok s
    ∧ summary dataset = Some s
    ∧ original_filename dataset = name csv_file
    ∧ original_filename dataset ≠ ""%string
    ∧ uploaded_at dataset = now
    ∧ pk dataset = last_pk st + 1
    ∧ last_pk st' = last_pk st + 1.
Proof.
  intros Hpost.
  apply post_created_inv_full in Hpost
    as (csv_file & df & s & Hfile & Hbool & Hread & _ & Hs & -> & Hrun & _).
  exists csv_file, df, s. simpl. split_and!; try done.
  - unfold file_bool in Hbool. by apply bool_decide_eq_true in Hbool.
  - destruct (cleanup_ok
                (mkStore (table st ++
                   [mkDataset (last_pk st + 1) (Some (fresh (dom (media st)))) now
                      (Some s) (name csv_file) ""]) (last_pk st + 1)
                   (<[fresh (dom (media st)) := content csv_file]> (media st))))
      as (st1 & Hrun1 & _ & Hseq).
    rewrite Hrun in Hrun1. by simplify_eq.
Qed.

(** ** Well-formed stores *)

Lemma NoDup_fmap_inj_on {A B} (f : A → B) (xs : list A) x y :
  NoDup (f <$> xs) → x ∈ xs → y ∈ xs → f x = f y → x = y.
Proof.
  induction xs as [|z xs IH]; [by intros _ ?%not_elem_of_nil|].
  rewrite fmap_cons. intros [Hz Hxs]%list.NoDup_cons Hx Hy Hxy.
  apply elem_of_cons in Hx as [->|Hx]; apply elem_of_cons in Hy as [->|Hy].
  - done.
  - destruct Hz. rewrite Hxy. by apply list_elem_of_fmap_2.
  - destruct Hz. rewrite <- Hxy. by apply list_elem_of_fmap_2.
  - by apply IH.
Qed.

Lemma NoDup_omap_inj_on {A B} (f : A → option B) (xs : list A) x y b :
  NoDup (omap f xs) → x ∈ xs → y ∈ xs → f x = Some b → f y = Some b → x = y.
Proof.
  induction xs as [|z xs IH]; [by intros _ ?%not_elem_of_nil|].
  intros Hnd Hx Hy Hfx Hfy. simpl in Hnd.
  apply elem_of_cons in Hx as [->|Hx]; apply elem_of_cons in Hy as [->|Hy].
  - done.
  - rewrite Hfx in Hnd. apply list.NoDup_cons in Hnd as [Hz _].
    destruct Hz. apply list_elem_of_omap. eauto.
  - rewrite Hfy in Hnd. apply list.NoDup_cons in Hnd as [Hz _].
    destruct Hz. apply list_elem_of_omap. eauto.
  - apply IH; try done. destruct (f z); [by apply list.NoDup_cons in Hnd as [_ ?]|done].
Qed.

Lemma Forall_filter_keep {A} (P Q : A → Prop) `{∀ x, Decision (Q x)} (xs : list A) :
  Forall P xs → Forall P (filter Q xs).
Proof.
  induction 1 as [|x xs Hx Hxs IH]; [constructor|].
  rewrite filter_cons. case_decide; [by constructor | done].
Qed.

Lemma omap_sublist {A B} (f : A → option B) (xs ys : list A) :
  xs `sublist_of` ys → omap f xs `sublist_of` omap f ys.
Proof.
  induction 1 as [|x xs ys Hs IH|x xs ys Hs IH]; simpl.
  - constructor.
  - destruct (f x); [by constructor | done].
  - destruct (f x); [by constructor | done].
Qed.

Lemma store_ok_empty (key : Z) :
  store_ok (mkStore (float := float) [] key (∅ : gmap nat bytes)).
Proof.
  unfold store_ok. simpl. split_and!; [constructor | constructor | constructor |].
  by rewrite dom_empty_L.
Qed.

Lemma store_ok_sound st : store_ok st → store_sound st.
Proof.
  intros (Hpk & Hle & Hfiles & Hdom). split_and!; [done..|]. by rewrite Hdom.
Qed.

(** A created dataset keeps the store well formed. *)
Lemma create_ok now (csv_file : UploadedFile) (s : Summary (float := float)) filename st :
  store_ok st →
  store_ok
    (mkStore (table st ++ [mkDataset (last_pk st + 1) (Some (fresh (dom (media st))))
                             now (Some s) filename ""])
       (last_pk st + 1) (<[fresh (dom (media st)) := content csv_file]> (media st))).
Proof.
  intros (Hpk & Hle & Hfiles & Hdom). unfold store_ok. simpl.
  pose proof (is_fresh (dom (media st))) as Hfresh.
  rewrite fmap_app, omap_app. simpl. split_and!.
  - apply list.NoDup_app. split_and!; [done | | apply NoDup_singleton].
    intros key Hkey ->%list_elem_of_singleton.
    apply list_elem_of_fmap in Hkey as (r & Hr & Hin).
    apply (proj1 (list.Forall_forall _ _) Hle) in Hin. lia.
  - apply Forall_app. split.
    + revert Hle. apply List.Forall_impl. intros r. lia.
    + constructor; [simpl; lia | constructor].
  - apply list.NoDup_app. split_and!; [done | | apply NoDup_singleton].
    intros key Hkey ->%list_elem_of_singleton.
    apply Hfresh.
    assert (∀ x, x ∈ omap file (table st) → x ∈ dom (media st)) as Hsub
      by (intros x Hx; rewrite Hdom; by apply elem_of_list_to_set).
    by apply Hsub.
  - rewrite dom_insert_L, Hdom, list_to_set_app_L. simpl.
    rewrite union_empty_r_L. apply (comm_L (∪)).
Qed.

(** Evicting a row keeps the store well formed: its file leaves the storage
    with it, and no other file does. *)
Lemma evict_ok oldest st :
  store_ok st → oldest ∈ table st → store_ok (evict oldest st).
Proof.
  intros (Hpk & Hle & Hfiles & Hdom) Hin. unfold store_ok, evict. simpl.
  split_and!.
  - eapply sublist_NoDup; [exact Hpk|]. apply fmap_sublist, sublist_filter.
  - by apply Forall_filter_keep.
  - eapply sublist_NoDup; [exact Hfiles|]. apply omap_sublist, sublist_filter.
  - apply set_eq. intros x.
    rewrite elem_of_list_to_set, list_elem_of_omap.
    setoid_rewrite list_elem_of_filter.
    destruct (file oldest) as [storage_name|] eqn:Hfile.
    + rewrite dom_delete_L, elem_of_difference, Hdom, elem_of_list_to_set,
        list_elem_of_omap, not_elem_of_singleton.
      split.
      * intros [(r & Hr & Hx) Hne]. exists r. split_and!; try done.
        intros Heq. apply Hne.
        assert (r = oldest) as -> by by eapply (NoDup_fmap_inj_on pk).
        congruence.
      * intros (r & [Hne Hr] & Hx). split; [by exists r|].
        intros ->. apply Hne. f_equal.
        by eapply (NoDup_omap_inj_on file).
    + rewrite Hdom, elem_of_list_to_set, list_elem_of_omap. split.
      * intros (r & Hr & Hx). exists r. split_and!; try done.
        intros Heq.
        assert (r = oldest) as -> by by eapply (NoDup_fmap_inj_on pk).
        congruence.
      * intros (r & [_ Hr] & Hx). by exists r.
Qed.

Lemma cleanup_loop_ok fuel st st' :
  store_ok st → cleanup_loop fuel st = (Ok (), st') → store_ok st'.
Proof.
  revert st. induction fuel as [|fuel IH]; intros st Hok Hrun.
  - simpl in Hrun. unfold mret in Hrun. by simplify_eq.
  - rewrite cleanup_loop_S in Hrun. case_decide as Hgt; [|by simplify_eq].
    pose proof (order_by_perm by_uploaded_at (table st)) as Hperm.
    destruct (order_by by_uploaded_at (table st)) as [|oldest rest]; [done|].
    apply (IH (evict oldest st)); [|done].
    apply evict_ok; [done|]. rewrite <- Hperm. by left.
Qed.

Lemma create_sound now (csv_file : UploadedFile) (s : Summary (float := float))
    filename st :
  store_sound st →
  store_sound
    (mkStore (table st ++ [mkDataset (last_pk st + 1) (Some (fresh (dom (media st))))
                             now (Some s) filename ""])
       (last_pk st + 1) (<[fresh (dom (media st)) := content csv_file]> (media st))).
Proof.
  intros (Hpk & Hle & Hfiles & Hdom). unfold store_sound. simpl.
  pose proof (is_fresh (dom (media st))) as Hfresh.
  assert (∀ x, x ∈ omap file (table st) → x ∈ dom (media st)) as Hsub
    by (intros x Hx; apply Hdom; by apply elem_of_list_to_set).
  rewrite fmap_app, omap_app. simpl. split_and!.
  - apply list.NoDup_app. split_and!; [done | | apply NoDup_singleton].
    intros key Hkey ->%list_elem_of_singleton.
    apply list_elem_of_fmap in Hkey as (r & Hr & Hin).
    apply (proj1 (list.Forall_forall _ _) Hle) in Hin. lia.
  - apply Forall_app. split.
    + revert Hle. apply List.Forall_impl. intros r. lia.
    + constructor; [simpl; lia | constructor].
  - apply list.NoDup_app. split_and!; [done | | apply NoDup_singleton].
    intros key Hkey ->%list_elem_of_singleton. by apply Hfresh, Hsub.
  - intros x. rewrite elem_of_list_to_set, elem_of_app, dom_insert_L, elem_of_union.
    intros [Hx|Hx]; [right; by apply Hsub | left].
    apply list_elem_of_singleton in Hx as ->. by apply elem_of_singleton.
Qed.

(** A file that is saved without a row keeps the store sound. *)
Lemma orphan_sound (csv_file : UploadedFile) st :
  store_sound st →
  store_sound
    (mkStore (table st) (last_pk st)
       (<[fresh (dom (media st)) := content csv_file]> (media st))).
Proof.
  intros (Hpk & Hle & Hfiles & Hdom). unfold store_sound. simpl.
  split_and!; [done..|].
  intros x Hx. rewrite dom_insert_L, elem_of_union. right. by apply Hdom.
Qed.

Lemma evict_sound oldest st :
  store_sound st → oldest ∈ table st → store_sound (evict oldest st).
Proof.
  intros (Hpk & Hle & Hfiles & Hdom) Hin. unfold store_sound, evict. simpl.
  split_and!.
  - eapply sublist_NoDup; [exact Hpk|]. apply fmap_sublist, sublist_filter.
  - by apply Forall_filter_keep.
  - eapply sublist_NoDup; [exact Hfiles|]. apply omap_sublist, sublist_filter.
  - intros x. rewrite elem_of_list_to_set, list_elem_of_omap.
    intros (r & [Hne Hr]%list_elem_of_filter & Hx).
    assert (x ∈ dom (media st)) as Hdomx.
    { apply Hdom, elem_of_list_to_set, list_elem_of_omap. eauto. }
    destruct (file oldest) as [storage_name|] eqn:Hfile; [|done].
    rewrite dom_delete_L, elem_of_difference, not_elem_of_singleton.
    split; [done|]. intros ->. apply Hne. f_equal.
    by eapply (NoDup_omap_inj_on file).
Qed.

Lemma cleanup_loop_sound fuel st st' :
  store_sound st → cleanup_loop fuel st = (Ok (), st') → store_sound st'.
Proof.
  revert st. induction fuel as [|fuel IH]; intros st Hok Hrun.
  - simpl in Hrun. unfold mret in Hrun. by simplify_eq.
  - rewrite cleanup_loop_S in Hrun. case_decide as Hgt; [|by simplify_eq].
    pose proof (order_by_perm by_uploaded_at (table st)) as Hperm.
    destruct (order_by by_uploaded_at (table st)) as [|oldest rest]; [done|].
    apply (IH (evict oldest st)); [|done].
    apply evict_sound; [done|]. rewrite <- Hperm. by left.
Qed.

(** A successful upload keeps a well-formed store well formed. *)
Lemma post_created_ok now request st dataset st' :
  store_ok st →
  UploadCSV_post mean64 read_csv now request st
  = (Ok (mkResponse (DatasetBody dataset) 201), st') →
  store_ok st'.
Proof.
  intros Hok Hpost.
  apply post_created_inv_full in Hpost
    as (csv_file & df & s & _ & _ & _ & _ & _ & Hd & Hrun & _).
  eapply cleanup_loop_ok; [|exact Hrun].
  rewrite Hd. by apply create_ok.
Qed.

(** Every upload keeps a sound store sound. *)
Lemma post_sound now request st :
  store_sound st → store_sound (UploadCSV_post mean64 read_csv now request st).2.
Proof.
  intros Hok.
  destruct (post_cases now request st)
    as [(dataset & st' & Heq) | [(response & Heq & _) | (csv_file & _ & Heq)]];
    rewrite Heq; simpl; [|done|by apply orphan_sound].
  apply post_created_inv_full in Heq
    as (csv_file & df & s & _ & _ & _ & _ & _ & Hd & Hrun & _).
  eapply cleanup_loop_sound; [|exact Hrun].
  rewrite Hd. by apply create_sound.
Qed.

(** An upload that is not answered 500 keeps a well-formed store well
    formed. *)
Lemma post_ok now request st :
  store_ok st →
  (∀ response,
     (UploadCSV_post mean64 read_csv now request st).1 = Ok response →
     status response ≠ 500%nat) →
  store_ok (UploadCSV_post mean64 read_csv now request st).2.
Proof.
  intros Hok Hstatus.
  destruct (post_cases now request st)
    as [(dataset & st' & Heq) | [(response & Heq & _) | (csv_file & _ & Heq)]].
  - rewrite Heq. simpl. by eapply post_created_ok.
  - by rewrite Heq.
  - rewrite Heq in Hstatus. by destruct (Hstatus _ eq_refl).
Qed.

Lemma cleanup_loop_complete fuel st st' :
  Forall (λ d, is_Some (file d) ∧ is_Some (summary d)) (table st) →
  cleanup_loop fuel st = (Ok (), st') →
  Forall (λ d, is_Some (file d) ∧ is_Some (summary d)) (table st').
Proof.
  revert st. induction fuel as [|fuel IH]; intros st Hall Hloop.
  - simpl in Hloop. unfold mret in Hloop. by simplify_eq.
  - rewrite cleanup_loop_S in Hloop. case_decide; [|by simplify_eq].
    destruct (order_by by_uploaded_at (table st)) as [|oldest rest]; [done|].
    apply (IH (evict oldest st)); [|done].
    by apply Forall_filter_keep.
Qed.

Lemma post_rows_complete now request st :
  Forall (λ d, is_Some (file d) ∧ is_Some (summary d)) (table st) →
  Forall (λ d, is_Some (file d) ∧ is_Some (summary d))
    (table (UploadCSV_post mean64 read_csv now request st).2).
Proof.
  intros Hall.
  destruct (post_cases now request st)
    as [(dataset & st' & Heq) | [(response & Heq & _) | (csv_file & _ & Heq)]];
    rewrite Heq; simpl; [|done..].
  apply post_created_inv_full in Heq
    as (csv_file & df & s & _ & _ & _ & _ & _ & Hd & Hrun & _).
  eapply cleanup_loop_complete; [|exact Hrun]. simpl.
  apply Forall_app. split; [done|]. constructor; [|constructor].
  subst dataset. simpl. eauto.
Qed.

(** X9. Along every run of uploads that starts from a sound store whose
    datasets all have a file and a summary (the empty store is one), every
    store reached is sound: primary keys are distinct and not above the
    counter, the files of the datasets are distinct and all in the storage,
    and every dataset has a file and a summary.  If moreover the storage
    holds no other file at the start and no upload of the run is answered
    500, the storage holds exactly the files of the stored datasets after
    every upload: the file of an evicted dataset is deleted and no other
    file is. *)
Theorem uploads_keep_store_well_formed (calls : list (Z * Request)) st :
  store_sound st →
  Forall (λ d, is_Some (file d) ∧ is_Some (summary d)) (table st) →
  Forall (λ r, store_sound r.2
               ∧ Forall (λ d, is_Some (file d) ∧ is_Some (summary d)) (table r.2))
    (uploads mean64 read_csv calls st)
  ∧ (store_ok st →
     Forall (λ r, ∀ response, r.1 = Ok response → status response ≠ 500%nat)
       (uploads mean64 read_csv calls st) →
     Forall (λ r, store_ok r.2) (uploads mean64 read_csv calls st)).
Proof.
  revert st. induction calls as [|[now request] calls IH]; intros st Hsound Hall; simpl.
  - split; [constructor|]. intros _ _. constructor.
  - pose proof (post_sound now request st Hsound) as Hsound'.
    pose proof (post_rows_complete now request st Hall) as Hall'.
    destruct (IH _ Hsound' Hall') as [IH1 IH2]. split.
    + by constructor.
    + intros Hok [Hstatus Hrest]%list.Forall_cons.
      pose proof (post_ok now request st Hok Hstatus) as Hok'.
      constructor; [done|]. by apply IH2.
Qed.

(** ** The retention pass *)

Lemma filter_pk_length oldest l :
  NoDup (pk <$> l) → oldest ∈ l →
  length (filter (λ r, pk r ≠ pk oldest) l) = pred (length l).
Proof.
  intros Hnd Hin.
  induction l as [|x l IH]; [by apply not_elem_of_nil in Hin|].
  rewrite fmap_cons in Hnd. apply list.NoDup_cons in Hnd as [Hx Hnd].
  rewrite filter_cons. apply elem_of_cons in Hin as [->|Hin].
  - rewrite decide_False by tauto. simpl. f_equal. apply filter_all.
    apply list.Forall_forall. intros r Hr Heq. apply Hx. rewrite <- Heq.
    by apply list_elem_of_fmap_2.
  - rewrite decide_True.
    + simpl. rewrite IH by done. destruct l; [by apply not_elem_of_nil in Hin|done].
    + intros Heq. apply Hx. rewrite Heq. by apply list_elem_of_fmap_2.
Qed.

Lemma cleanup_loop_length fuel st st' :
  NoDup (pk <$> table st) →
  (length (table st) ≤ fuel + MAX_DATASETS)%nat →
  cleanup_loop fuel st = (Ok (), st') →
  length (table st') = (length (table st) `min` MAX_DATASETS)%nat.
Proof.
  revert st. induction fuel as [|fuel IH]; intros st Hnd Hlen Hrun.
  - simpl in Hrun. unfold mret in Hrun. simplify_eq. lia.
  - rewrite cleanup_loop_S in Hrun. case_decide as Hgt; [|simplify_eq; lia].
    pose proof (order_by_perm by_uploaded_at (table st)) as Hperm.
    destruct (order_by by_uploaded_at (table st)) as [|oldest rest]; [done|].
    assert (oldest ∈ table st) as Hin by (rewrite <- Hperm; by left).
    pose proof (filter_pk_length oldest (table st) Hnd Hin) as Hone.
    apply IH in Hrun.
    + rewrite Hrun. simpl. lia.
    + simpl. eapply sublist_NoDup; [exact Hnd|]. apply fmap_sublist, sublist_filter.
    + simpl. lia.
Qed.

(** X10. On a store with distinct primary keys the retention pass removes
    exactly the excess over [MAX_DATASETS] and no more: what is left is the
    smaller of the former count and 5. *)
Theorem cleanup_removes_only_the_excess st st' :
  NoDup (pk <$> table st) →
  _cleanup_old_datasets st = (Ok (), st') →
  length (table st') = (length (table st) `min` 5)%nat.
Proof.
  intros Hnd Hrun. by apply (cleanup_loop_length (length (table st)) st st'); [|lia|].
Qed.

Lemma cleanup_loop_keeps_recent fuel st st' :
  NoDup (pk <$> table st) →
  cleanup_loop fuel st = (Ok (), st') →
  table st' `sublist_of` table st
  ∧ ∀ r kept, r ∈ table st → r ∉ table st' → kept ∈ table st' →
      uploaded_at r ≤ uploaded_at kept.
Proof.
  revert st. induction fuel as [|fuel IH]; intros st Hnd Hrun.
  - simpl in Hrun. unfold mret in Hrun. simplify_eq. split; [done|]. by intros.
  - rewrite cleanup_loop_S in Hrun. case_decide as Hgt.
    2:{ simplify_eq. split; [done|]. by intros. }
    destruct (objects_earliest_spec st) as (oldest & Hget & Hin & Hmin & _).
    { intros Hnil. rewrite Hnil in Hgt. simpl in Hgt. lia. }
    unfold objects_earliest in Hget.
    destruct (order_by by_uploaded_at (table st)) as [|o rest]; [done|].
    simplify_eq.
    apply IH in Hrun as [Hsub Hkept].
    2:{ simpl. eapply sublist_NoDup; [exact Hnd|]. apply fmap_sublist, sublist_filter. }
    simpl in Hsub, Hkept. split.
    + etrans; [exact Hsub|]. apply sublist_filter.
    + intros r kept Hr Hgone Hk.
      destruct (decide (pk r = pk oldest)) as [Heq|Hne].
      * assert (r = oldest) as -> by by eapply (NoDup_fmap_inj_on pk).
        apply Hmin. eapply elem_of_sublist; [exact Hk|].
        etrans; [exact Hsub|]. apply sublist_filter.
      * apply Hkept; [|done..]. apply list_elem_of_filter. by split.
Qed.

(** X11. The retention pass keeps the most recent datasets, in the order they
    had: what is left is the table with some rows taken out, and no dataset
    taken out was uploaded later than a dataset that is kept. *)
Theorem cleanup_keeps_the_most_recent st st' :
  NoDup (pk <$> table st) →
  _cleanup_old_datasets st = (Ok (), st') →
  table st' `sublist_of` table st
  ∧ ∀ r kept, r ∈ table st → r ∉ table st' → kept ∈ table st' →
      uploaded_at r ≤ uploaded_at kept.
Proof. intros Hnd Hrun. by eapply cleanup_loop_keeps_recent. Qed.

(** ** What an upload leaves behind *)

(** X12. A successful upload into a well-formed store adds one dataset and
    evicts at most what exceeds the limit: the store then holds one dataset
    more than before, or 5. *)
Theorem post_created_row_count now request st dataset st' :
  store_ok st →
  UploadCSV_post mean64 read_csv now request st
  = (Ok (mkResponse (DatasetBody dataset) 201), st') →
  length (table st') = (S (length (table st)) `min` 5)%nat.
Proof.
  intros Hok Hpost.
  apply post_created_inv_full in Hpost
    as (csv_file & df & s & _ & _ & _ & _ & _ & Hd & Hrun & Hvalid).
  pose proof (create_ok now csv_file s (name csv_file) st Hok) as (Hnd & _).
  simpl in Hnd. rewrite <- Hd in Hnd.
  unfold _cleanup_old_datasets in Hrun.
  apply cleanup_loop_length in Hrun; [|done|lia].
  rewrite Hrun. simpl. rewrite length_app. simpl. unfold MAX_DATASETS. lia.
Qed.

Lemma cleanup_loop_keeps_last fuel rows d st st' :
  table st = rows ++ [d] →
  NoDup (pk <$> table st) →
  Forall (λ r, uploaded_at r ≤ uploaded_at d) rows →
  cleanup_loop fuel st = (Ok (), st') →
  ∃ rows', table st' = rows' ++ [d] ∧ rows' `sublist_of` rows.
Proof.
  revert rows st. induction fuel as [|fuel IH]; intros rows st Htable Hnd Hle Hrun.
  - simpl in Hrun. unfold mret in Hrun. simplify_eq. by exists rows.
  - rewrite cleanup_loop_S in Hrun. case_decide as Hgt.
    2:{ simplify_eq. by exists rows. }
    destruct (objects_earliest_spec st) as (oldest & Hget & Hin & Hmin & Hhead).
    { intros Hnil. rewrite Hnil in Hgt. simpl in Hgt. lia. }
    unfold objects_earliest in Hget.
    destruct (order_by by_uploaded_at (table st)) as [|o rest]; [done|].
    simplify_eq.
    assert (pk oldest ≠ pk d) as Hne.
    { intros Heq.
      assert (oldest = d) as ->.
      { eapply (NoDup_fmap_inj_on pk); [exact Hnd | done | | done].
        rewrite Htable. apply elem_of_app. right. by left. }
      destruct rows as [|r0 rows].
      { rewrite Htable in Hgt. simpl in Hgt. unfold MAX_DATASETS in Hgt. lia. }
      apply list.Forall_cons in Hle as [Hr0 _].
      assert (uploaded_at d ≤ uploaded_at r0) as Hr0'
        by (apply Hmin; rewrite Htable; by left).
      rewrite Htable in Hhead. simpl in Hhead.
      rewrite filter_cons, decide_True in Hhead by lia.
      simpl in Hhead. simplify_eq.
      rewrite Htable in Hnd. simpl in Hnd. apply list.NoDup_cons in Hnd as [Hnd _].
      apply Hnd. rewrite fmap_app. apply elem_of_app. right. by left. }
    apply (IH (filter (λ r, pk r ≠ pk oldest) rows)) in Hrun.
    + destruct Hrun as (rows' & Hrows' & Hsub). exists rows'. split; [done|].
      etrans; [exact Hsub|]. apply sublist_filter.
    + simpl. rewrite Htable, list.filter_app. f_equal.
      rewrite filter_cons, decide_True by congruence. done.
    + simpl. eapply sublist_NoDup; [exact Hnd|]. apply fmap_sublist, sublist_filter.
    + by apply Forall_filter_keep.
Qed.

Lemma post_created_last now request st dataset st' :
  store_ok st →
  (∀ r, r ∈ table st → uploaded_at r ≤ now) →
  UploadCSV_post mean64 read_csv now request st
  = (Ok (mkResponse (DatasetBody dataset) 201), st') →
  ∃ rows, table st' = rows ++ [dataset] ∧ rows `sublist_of` table st.
Proof.
  intros Hok Hnow Hpost.
  apply post_created_inv_full in Hpost
    as (csv_file & df & s & _ & _ & _ & _ & _ & Hd & Hrun & Hvalid).
  pose proof (create_ok now csv_file s (name csv_file) st Hok) as (Hnd & _).
  simpl in Hnd. rewrite <- Hd in Hnd.
  unfold _cleanup_old_datasets in Hrun.
  eapply (cleanup_loop_keeps_last _ (table st) dataset) in Hrun;
    [exact Hrun | done | done |].
  apply list.Forall_forall. intros r Hr. subst dataset. simpl. by apply Hnow.
Qed.





(** ** The download view *)

Lemma filter_pk_unique d l :
  NoDup (pk <$> l) → d ∈ l → filter (λ r, pk r = pk d) l = [d].
Proof.
  intros Hnd Hin.
  induction l as [|x l IH]; [by apply not_elem_of_nil in Hin|].
  rewrite fmap_cons in Hnd. apply list.NoDup_cons in Hnd as [Hx Hnd].
  rewrite filter_cons. apply elem_of_cons in Hin as [->|Hin].
  - rewrite decide_True by done. f_equal.
    destruct (filter (λ r, pk r = pk x) l) as [|y ys] eqn:Hf; [done|].
    assert (y ∈ filter (λ r, pk r = pk x) l) as Hy by (rewrite Hf; by left).
    apply list_elem_of_filter in Hy as [Hpk Hy].
    destruct Hx. rewrite <- Hpk. by apply list_elem_of_fmap_2.
  - rewrite decide_False; [by apply IH|].
    intros Heq. apply Hx. rewrite Heq. by apply list_elem_of_fmap_2.
Qed.

Lemma filter_pk_none (key : Z) l :
  (∀ r, r ∈ l → pk r ≠ key) → filter (λ r, pk r = key) l = [].
Proof.
  intros Hnone. induction l as [|x l IH]; [done|].
  rewrite filter_cons, decide_False by (apply Hnone; by left).
  apply IH. intros r Hr. apply Hnone. by right.
Qed.

(** X16. In a well-formed store the download view never raises and never
    changes the store.  It answers 200 with the stored content of the
    dataset's file, under the dataset's file name or 'dataset.csv' when that
    name is empty, if a dataset with the key exists and has a file; it
    answers 404 otherwise. *)
Theorem download_answers (key : Z) st :
  store_ok st →
  (∃ d storage_name payload,
     d ∈ table st ∧ pk d = key ∧ file d = Some storage_name
     ∧ media st !! storage_name = Some payload
     ∧ DatasetDownload_get key st
       = (Ok (mkResponse
                (FileBody payload
                   (if decide (original_filename d = ""%string)
                    then "dataset.csv"%string else original_filename d)) 200), st))
  ∨ ((¬ ∃ d, d ∈ table st ∧ pk d = key ∧ is_Some (file d))
     ∧ ∃ text, DatasetDownload_get key st = (Ok (mkResponse (ErrorBody text) 404), st)).
Proof.
  intros (Hpk & Hle & Hfiles & Hdom).
  destruct (filter (λ r, pk r = key) (table st)) as [|d rest] eqn:Hfilter.
  - right. split.
    + intros (d & Hin & Hkey & _).
      by eapply (filter_nil_not_elem_of (λ r, pk r = key)).
    + unfold DatasetDownload_get, try_except, mbind, objects_get.
      rewrite Hfilter. by eexists.
  - assert (d ∈ filter (λ r, pk r = key) (table st)) as Hd
      by (rewrite Hfilter; by left).
    apply list_elem_of_filter in Hd as [<- Hin].
    pose proof (filter_pk_unique d (table st) Hpk Hin) as Hone.
    unfold DatasetDownload_get, try_except, mbind, objects_get. rewrite Hone.
    destruct (file d) as [storage_name|] eqn:Hfile.
    + left.
      assert (is_Some (media st !! storage_name)) as [payload Hpayload].
      { apply elem_of_dom. rewrite Hdom. apply elem_of_list_to_set.
        apply list_elem_of_omap. eauto. }
      exists d, storage_name, payload. split_and!; try done.
      unfold file_open. rewrite Hfile. simpl. by rewrite Hpayload.
    + right. split; [|by eexists].
      intros (d' & Hin' & Hpk' & Hsome).
      assert (d' = d) as -> by by eapply (NoDup_fmap_inj_on pk).
      rewrite Hfile in Hsome. by destruct Hsome.
Qed.

(** X17. A key that no stored dataset has is answered 404 'Dataset not found',
    in any store. *)
Theorem download_unknown_key (key : Z) st :
  (∀ r, r ∈ table st → pk r ≠ key) →
  DatasetDownload_get key st
  = (Ok (mkResponse (ErrorBody "Dataset not found") 404), st).
Proof.
  intros Hnone. unfold DatasetDownload_get, try_except, mbind, objects_get.
  by rewrite filter_pk_none.
Qed.

Lemma cleanup_loop_media fuel st st' :
  store_ok st →
  cleanup_loop fuel st = (Ok (), st') →
  ∀ r storage_name, r ∈ table st' → file r = Some storage_name →
    media st' !! storage_name = media st !! storage_name.
Proof.
  revert st. induction fuel as [|fuel IH]; intros st Hok Hrun r k Hr Hk.
  - simpl in Hrun. unfold mret in Hrun. by simplify_eq.
  - rewrite cleanup_loop_S in Hrun. case_decide as Hgt; [|by simplify_eq].
    pose proof (order_by_perm by_uploaded_at (table st)) as Hperm.
    destruct (order_by by_uploaded_at (table st)) as [|oldest rest]; [done|].
    assert (oldest ∈ table st) as Hin by (rewrite <- Hperm; by left).
    pose proof (evict_ok oldest st Hok Hin) as Hok'.
    rewrite (IH _ Hok' Hrun r k Hr Hk).
    destruct (cleanup_loop_keeps_recent fuel (evict oldest st) st') as [Hsub _];
      [by destruct Hok' | done |].
    assert (r ∈ table (evict oldest st)) as Hr' by by eapply elem_of_sublist.
    simpl in Hr'. apply list_elem_of_filter in Hr' as [Hne Hr'].
    unfold evict. simpl. destruct (file oldest) as [k0|] eqn:Hk0; [|done].
    apply lookup_delete_ne. intros ->. apply Hne. f_equal.
    destruct Hok as (_ & _ & Hfiles & _).
    by eapply (NoDup_omap_inj_on file).
Qed.

(** X18. Upload and download go round: after a successful upload into a
    well-formed store, at a clock reading not before the upload time of any
    stored dataset, a download with the key of the created dataset answers
    200 with the uploaded content under the uploaded file's name. *)
Theorem download_after_upload now request st dataset st' :
  store_ok st →
  (∀ r, r ∈ table st → uploaded_at r ≤ now) →
  UploadCSV_post mean64 read_csv now request st
  = (Ok (mkResponse (DatasetBody dataset) 201), st') →
  ∃ csv_file,
    FILES request !! "file"%string = Some csv_file
    ∧ DatasetDownload_get (pk dataset) st'
      = (Ok (mkResponse (FileBody (content csv_file) (name csv_file)) 200), st').
Proof.
  intros Hok Hnow Hpost.
  destruct (post_created_last now request st dataset st' Hok Hnow Hpost)
    as (rows & Htable & _).
  pose proof (post_created_ok now request st dataset st' Hok Hpost) as Hok'.
  apply post_created_inv_full in Hpost
    as (csv_file & df & s & Hfile & Hbool & _ & _ & _ & Hd & Hrun & Hvalid).
  exists csv_file. split; [done|].
  assert (dataset ∈ table st') as Hin
    by (rewrite Htable; apply elem_of_app; right; by left).
  pose proof (create_ok now csv_file s (name csv_file) st Hok) as Hokc.
  simpl in Hokc. rewrite <- Hd in Hokc.
  pose proof (cleanup_loop_media _ _ _ Hokc Hrun dataset (fresh (dom (media st))) Hin)
    as Hmedia.
  simpl in Hmedia. rewrite lookup_insert_eq in Hmedia.
  unfold DatasetDownload_get, try_except, mbind, objects_get.
  rewrite (filter_pk_unique dataset (table st')); [|by destruct Hok'|done].
  assert (file dataset = Some (fresh (dom (media st)))) as Hf by by subst dataset.
  rewrite Hf. unfold file_open. rewrite Hf. simpl. rewrite Hmedia by done.
  unfold file_bool in Hbool. apply bool_decide_eq_true in Hbool.
  assert (original_filename dataset = name csv_file) as -> by by subst dataset.
  by rewrite decide_False.
Qed.

(** ** Views that only read *)

(** X19. The history view and the latest-summary view never raise, and neither
    they nor the download view change the store. *)
Theorem reading_views_leave_the_store (key : Z) st :
  (∃ response, HistoryList_get st = (Ok response, st))
  ∧ (∃ response, LatestSummary_get st = (Ok response, st))
  ∧ (DatasetDownload_get key st).2 = st.
Proof.
  split_and!.
  - by eexists.
  - unfold LatestSummary_get, try_except, mbind, objects_latest.
    destruct (order_by by_uploaded_at_desc (table st)); by eexists.
  - unfold DatasetDownload_get, try_except, mbind, objects_get.
    destruct (filter (λ d, pk d = key) (table st)) as [|d [|d' ds]]; [done| |done].
    destruct (file d) as [k|] eqn:Hk; [|done].
    unfold file_open. rewrite Hk. simpl. by destruct (media st !! k).
Qed.

(** ** The desktop client *)

Variable http_error_str : nat → string.
Variable error_page : Exception → string.
Variable response_text : Response (float := float) → string.
Variable basename : string → string.
Variable received_name : string → option string.

Implicit Types (app : App (float := float)).

(** What a refresh shows when the store has a latest dataset. *)
Lemma refresh_data_latest app st latest :
  objects_latest st = (Ok latest, st) →
  ∃ app',
    refresh_data http_error_str app st = (app', st)
    ∧ history_table app' = history_row <$> order_by by_uploaded_at_desc (table st)
    ∧ stats_label app'
      = match summary latest with
        | Some s => StatsSummary (original_filename latest) (uploaded_at latest)
                      (total_count s) (averages s !! "Flowrate"%string)
                      (averages s !! "Pressure"%string)
                      (averages s !! "Temperature"%string)
        | None => StatsText "No summary data available"
        end
    ∧ chart app'
      = match summary latest with
        | Some s => if decide (type_distribution s = ∅) then NoDataChart
                    else BarChart (type_distribution s)
        | None => NoDataChart
        end
    ∧ msg app' = msg app ∧ msg_style app' = msg_style app
    ∧ upload_btn_enabled app' = upload_btn_enabled app.
Proof.
  intros Hget. unfold refresh_data, get_latest_summary, get_history.
  unfold LatestSummary_get, HistoryList_get, try_except, mbind.
  rewrite Hget. unfold objects_all_order_by_desc, mret. simpl.
  eexists. split; [done|].
  destruct (summary latest) as [s|]; [case_decide|]; simpl; by split_and!.
Qed.

(** X20. Refreshing against an empty store shows
    'No data available. Upload a CSV file to get started.', the empty chart
    and an empty history table; the message line is left as it was and the
    store is not changed. *)
Theorem refresh_on_empty_store app st :
  table st = [] →
  refresh_data http_error_str app st
  = (mkApp (msg app) (msg_style app) (upload_btn_enabled app)
       (StatsText "No data available. Upload a CSV file to get started.")
       NoDataChart [], st).
Proof.
  intros Hnil. unfold refresh_data, get_latest_summary.
  unfold LatestSummary_get, try_except, mbind, objects_latest. by rewrite Hnil.
Qed.

(** X21. Refreshing against a store that is not empty fills the history table
    with one row per stored dataset, most recent upload first, each with the
    dataset's file name, upload time and record count (0 without a summary);
    the label shows the latest dataset; the message line and the store are
    left as they were. *)
Theorem refresh_shows_the_store app st :
  table st ≠ [] →
  ∃ latest app',
    objects_latest st = (Ok latest, st)
    ∧ refresh_data http_error_str app st = (app', st)
    ∧ history_table app' = history_row <$> order_by by_uploaded_at_desc (table st)
    ∧ length (history_table app') = length (table st)
    ∧ stats_label app'
      = match summary latest with
        | Some s => StatsSummary (original_filename latest) (uploaded_at latest)
                      (total_count s) (averages s !! "Flowrate"%string)
                      (averages s !! "Pressure"%string)
                      (averages s !! "Temperature"%string)
        | None => StatsText "No summary data available"
        end
    ∧ chart app'
      = match summary latest with
        | Some s => if decide (type_distribution s = ∅) then NoDataChart
                    else BarChart (type_distribution s)
        | None => NoDataChart
        end
    ∧ msg app' = msg app ∧ msg_style app' = msg_style app
    ∧ upload_btn_enabled app' = upload_btn_enabled app.
Proof.
  intros Hne.
  destruct (objects_latest_spec st Hne) as (latest & Hget & _).
  destruct (refresh_data_latest app st latest Hget) as (app' & Hrun & Hrows & Hrest).
  exists latest, app'. split_and!; try done; try tauto.
  by rewrite Hrows, length_fmap, order_by_length.
Qed.


(** X22. Refreshing is idempotent: a second refresh against the same store
    leaves the window as the first one left it. *)
Theorem refresh_twice_is_refresh_once app st :
  refresh_data http_error_str (refresh_data http_error_str app st).1 st
  = refresh_data http_error_str app st.
Proof.
  destruct (table st) as [|r rs] eqn:Htable.
  - unfold refresh_data, get_latest_summary.
    unfold LatestSummary_get, try_except, mbind, objects_latest. rewrite Htable.
    done.
  - destruct (objects_latest_spec st) as (latest & Hget & _); [by rewrite Htable|].
    unfold refresh_data, get_latest_summary, get_history.
    unfold LatestSummary_get, HistoryList_get, try_except, mbind.
    rewrite Hget. unfold objects_all_order_by_desc, mret. simpl.
    destruct (summary latest) as [s|]; [case_decide|]; simpl;
      rewrite ?decide_True by done; rewrite ?decide_False by done; done.
Qed.



Lemma post_no_file now st :
  UploadCSV_post mean64 read_csv now (mkRequest ∅) st
  = (Ok (mkResponse (ErrorBody "No file provided") 400), st).
Proof. unfold UploadCSV_post. cbn [FILES]. by rewrite lookup_empty. Qed.

(** X24. The upload handler when there is nothing to send.  With the file
    dialog cancelled the window and the store stay as they are.  With a path
    that is not on disk the message line shows the error of [open], which
    names the path by its [repr], and nothing is sent.  With a file whose
    name the server's parser drops, the view finds no file and the message
    line shows its 'No file provided'.  In the last two cases the upload
    button is enabled and the store stays as it is. *)
Theorem gui_upload_without_file
    (disk : gmap string bytes) (now : Z) (path : string) app st :
  (path = ""%string →
   upload mean64 read_csv http_error_str error_page response_text basename
     received_name disk now path app st = (app, st))
  ∧ (path ≠ ""%string → disk !! path = None →
     upload mean64 read_csv http_error_str error_page response_text basename
       received_name disk now path app st
     = (mkApp ("✗ Error: [Errno 2] No such file or directory: " +:+ repr path)
          "padding: 5px; color: #f44336; font-weight: bold;" true
          (stats_label app) (chart app) (history_table app), st))
  ∧ (path ≠ ""%string → is_Some (disk !! path) →
     received_name (basename path) = None →
     upload mean64 read_csv http_error_str error_page response_text basename
       received_name disk now path app st
     = (mkApp "✗ Error: No file provided"
          "padding: 5px; color: #f44336; font-weight: bold;" true
          (stats_label app) (chart app) (history_table app), st)).
Proof.
  split_and!.
  - intros ->. done.
  - intros Hpath Hdisk. unfold upload, upload_csv.
    rewrite decide_False by done. by rewrite Hdisk.
  - intros Hpath [f Hdisk] Hdropped. unfold upload, upload_csv.
    rewrite decide_False by done. rewrite Hdisk.
    unfold posted. rewrite Hdropped. by rewrite post_no_file.
Qed.


End Behaviour.

(** * The further properties at concrete inputs *)


Lemma type_distribution_counts_rows_witness :
  _calculate_summary mean_Qc missing_type = Ok (summary_of missing_type)
  ∧ ∃ types,
      getitem missing_type "Type" = Ok types
      ∧ ∀ k n, type_distribution (summary_of missing_type) !! k = Some n
               ↔ n = occurrences k types ∧ (0 < n)%nat.
Proof.
  assert (_calculate_summary mean_Qc missing_type = Ok (summary_of missing_type))
    as Hs by by_evaluation.
  split; [exact Hs|].
  exact (type_distribution_counts_rows mean_Qc missing_type _ Hs).
Defined.

Lemma summary_counts_ignore_row_order_witness :
  columns pump_valve = columns valve_pump
  ∧ rows pump_valve ≡ₚ rows valve_pump
  ∧ _calculate_summary mean_Qc pump_valve = Ok (summary_of pump_valve)
  ∧ ∃ s', _calculate_summary mean_Qc valve_pump = Ok s'
      ∧ total_count s' = total_count (summary_of pump_valve)
      ∧ type_distribution s' = type_distribution (summary_of pump_valve).
Proof.
  assert (rows pump_valve ≡ₚ rows valve_pump) as Hrows
    by (unfold pump_valve, valve_pump; simpl; apply perm_swap).
  assert (_calculate_summary mean_Qc pump_valve = Ok (summary_of pump_valve))
    as Hs by by_evaluation.
  split_and!; [reflexivity | exact Hrows | exact Hs |].
  exact (summary_counts_ignore_row_order mean_Qc pump_valve valve_pump _
           eq_refl Hrows Hs).
Defined.

Lemma post_unreadable_file_witness :
  UploadCSV_post mean_Qc (raising (EmptyDataError "No columns to parse from file")) 1
    (upload_of "data.csv") empty_store
  = (Ok (mkResponse (ErrorBody "CSV file is empty") 400), empty_store).
Proof.
  exact (post_unreadable_file mean_Qc
           (raising (EmptyDataError "No columns to parse from file")) 1
           (upload_of "data.csv") empty_store (mkUploadedFile "data.csv" payload)
           (EmptyDataError "No columns to parse from file") eq_refl eq_refl eq_refl).
Defined.

Lemma post_created_dataset_witness :
  UploadCSV_post mean_Qc (parsed_as pump_valve) 1 (upload_of "data.csv") empty_store
  = (Ok (mkResponse (DatasetBody (uploaded 1 1 "data.csv")) 201), store_after 1 1)
  ∧ ∃ csv_file df s,
      FILES (upload_of "data.csv") !! "file"%string = Some csv_file
      ∧ parsed_as pump_valve (content csv_file) = Ok df
      ∧ _calculate_summary mean_Qc df = Ok s
      ∧ summary (uploaded 1 1 "data.csv") = Some s
      ∧ original_filename (uploaded 1 1 "data.csv") = name csv_file
      ∧ original_filename (uploaded 1 1 "data.csv") ≠ ""%string
      ∧ uploaded_at (uploaded 1 1 "data.csv") = 1
      ∧ pk (uploaded 1 1 "data.csv") = last_pk empty_store + 1
      ∧ last_pk (store_after 1 1) = last_pk empty_store + 1.
Proof.
  assert (UploadCSV_post mean_Qc (parsed_as pump_valve) 1 (upload_of "data.csv") empty_store
          = (Ok (mkResponse (DatasetBody (uploaded 1 1 "data.csv")) 201), store_after 1 1))
    as Hpost by by_evaluation.
  split; [exact Hpost|].
  exact (post_created_dataset mean_Qc (parsed_as pump_valve) 1 (upload_of "data.csv")
           empty_store _ _ Hpost).
Defined.

Lemma uploads_keep_store_well_formed_witness :
  store_sound empty_store
  ∧ Forall (λ r, store_sound r.2
                 ∧ Forall (λ d, is_Some (file d) ∧ is_Some (summary d)) (table r.2))
      (uploads mean_Qc (parsed_as pump_valve) seven_calls empty_store)
  ∧ (store_ok empty_store →
     Forall (λ r, ∀ response, r.1 = Ok response → status response ≠ 500%nat)
       (uploads mean_Qc (parsed_as pump_valve) seven_calls empty_store) →
     Forall (λ r, store_ok r.2)
       (uploads mean_Qc (parsed_as pump_valve) seven_calls empty_store)).
Proof.
  assert (store_sound empty_store) as Hsound by by_evaluation.
  split; [exact Hsound|].
  exact (uploads_keep_store_well_formed mean_Qc (parsed_as pump_valve) seven_calls
           empty_store Hsound ltac:(constructor)).
Defined.

Lemma cleanup_removes_only_the_excess_witness :
  NoDup (pk <$> table seven_rows)
  ∧ _cleanup_old_datasets seven_rows = (Ok (), five_rows)
  ∧ length (table five_rows) = (length (table seven_rows) `min` 5)%nat.
Proof.
  assert (NoDup (pk <$> table seven_rows)) as Hnd by by_evaluation.
  assert (_cleanup_old_datasets seven_rows = (Ok (), five_rows)) as Hrun by by_evaluation.
  split_and!; [exact Hnd | exact Hrun |].
  exact (cleanup_removes_only_the_excess seven_rows five_rows Hnd Hrun).
Defined.

Lemma cleanup_keeps_the_most_recent_witness :
  NoDup (pk <$> table seven_rows)
  ∧ _cleanup_old_datasets seven_rows = (Ok (), five_rows)
  ∧ table five_rows `sublist_of` table seven_rows
  ∧ ∀ r kept, r ∈ table seven_rows → r ∉ table five_rows → kept ∈ table five_rows →
      uploaded_at r ≤ uploaded_at kept.
Proof.
  assert (NoDup (pk <$> table seven_rows)) as Hnd by by_evaluation.
  assert (_cleanup_old_datasets seven_rows = (Ok (), five_rows)) as Hrun by by_evaluation.
  split; [exact Hnd|]. split; [exact Hrun|].
  exact (cleanup_keeps_the_most_recent seven_rows five_rows Hnd Hrun).
Defined.

Lemma post_created_row_count_witness :
  store_ok (store_after 1 5)
  ∧ UploadCSV_post mean_Qc (parsed_as pump_valve) 6 (upload_of "data.csv") (store_after 1 5)
    = (Ok (mkResponse (DatasetBody (uploaded 6 6 "data.csv")) 201), store_after 2 6)
  ∧ length (table (store_after 2 6)) = (S (length (table (store_after 1 5))) `min` 5)%nat.
Proof.
  assert (store_ok (store_after 1 5)) as Hok by by_evaluation.
  assert (UploadCSV_post mean_Qc (parsed_as pump_valve) 6 (upload_of "data.csv")
            (store_after 1 5)
          = (Ok (mkResponse (DatasetBody (uploaded 6 6 "data.csv")) 201), store_after 2 6))
    as Hpost by by_evaluation.
  split_and!; [exact Hok | exact Hpost |].
  exact (post_created_row_count mean_Qc (parsed_as pump_valve) 6 (upload_of "data.csv")
           (store_after 1 5) _ _ Hok Hpost).
Defined.




Lemma download_answers_witness :
  store_ok (store_after 3 7)
  ∧ ((∃ d storage_name payload,
        d ∈ table (store_after 3 7) ∧ pk d = 3 ∧ file d = Some storage_name
        ∧ media (store_after 3 7) !! storage_name = Some payload
        ∧ DatasetDownload_get 3 (store_after 3 7)
          = (Ok (mkResponse
                   (FileBody payload
                      (if decide (original_filename d = ""%string)
                       then "dataset.csv"%string else original_filename d)) 200),
             store_after 3 7))
     ∨ ((¬ ∃ d, d ∈ table (store_after 3 7) ∧ pk d = 3 ∧ is_Some (file d))
        ∧ ∃ text, DatasetDownload_get 3 (store_after 3 7)
                  = (Ok (mkResponse (ErrorBody text) 404), store_after 3 7))).
Proof.
  assert (store_ok (store_after 3 7)) as Hok by by_evaluation.
  split; [exact Hok|].
  exact (download_answers 3 (store_after 3 7) Hok).
Defined.

Lemma download_unknown_key_witness :
  (∀ r, r ∈ table (store_after 3 7) → pk r ≠ 1)
  ∧ DatasetDownload_get 1 (store_after 3 7)
    = (Ok (mkResponse (ErrorBody "Dataset not found") 404), store_after 3 7).
Proof.
  assert (∀ r, r ∈ table (store_after 3 7) → pk r ≠ 1) as Hnone
    by (apply list.Forall_forall; by_evaluation).
  split; [exact Hnone|].
  exact (download_unknown_key 1 (store_after 3 7) Hnone).
Defined.

Lemma download_after_upload_witness :
  store_ok (store_after 1 5)
  ∧ (∀ r, r ∈ table (store_after 1 5) → uploaded_at r ≤ 6)
  ∧ UploadCSV_post mean_Qc (parsed_as pump_valve) 6 (upload_of "data.csv") (store_after 1 5)
    = (Ok (mkResponse (DatasetBody (uploaded 6 6 "data.csv")) 201), store_after 2 6)
  ∧ ∃ csv_file,
      FILES (upload_of "data.csv") !! "file"%string = Some csv_file
      ∧ DatasetDownload_get (pk (uploaded 6 6 "data.csv")) (store_after 2 6)
        = (Ok (mkResponse (FileBody (content csv_file) (name csv_file)) 200),
           store_after 2 6).
Proof.
  assert (store_ok (store_after 1 5)) as Hok by by_evaluation.
  assert (∀ r, r ∈ table (store_after 1 5) → uploaded_at r ≤ 6) as Hnow
    by (apply list.Forall_forall; by_evaluation).
  assert (UploadCSV_post mean_Qc (parsed_as pump_valve) 6 (upload_of "data.csv")
            (store_after 1 5)
          = (Ok (mkResponse (DatasetBody (uploaded 6 6 "data.csv")) 201), store_after 2 6))
    as Hpost by by_evaluation.
  split_and!; [exact Hok | exact Hnow | exact Hpost |].
  exact (download_after_upload mean_Qc (parsed_as pump_valve) 6 (upload_of "data.csv")
           (store_after 1 5) _ _ Hok Hnow Hpost).
Defined.

Lemma refresh_on_empty_store_witness :
  refresh_data http_error_text window empty_store
  = (mkApp (msg window) (msg_style window) (upload_btn_enabled window)
       (StatsText "No data available. Upload a CSV file to get started.")
       NoDataChart [], empty_store).
Proof. exact (refresh_on_empty_store http_error_text window empty_store eq_refl). Defined.

Lemma refresh_shows_the_store_witness :
  table (store_after 3 7) ≠ []
  ∧ ∃ latest app',
      objects_latest (store_after 3 7) = (Ok latest, store_after 3 7)
      ∧ refresh_data http_error_text window (store_after 3 7) = (app', store_after 3 7)
      ∧ history_table app'
        = history_row <$> order_by by_uploaded_at_desc (table (store_after 3 7))
      ∧ length (history_table app') = length (table (store_after 3 7))
      ∧ stats_label app'
        = match summary latest with
          | Some s => StatsSummary (original_filename latest) (uploaded_at latest)
                        (total_count s) (averages s !! "Flowrate"%string)
                        (averages s !! "Pressure"%string)
                        (averages s !! "Temperature"%string)
          | None => StatsText "No summary data available"
          end
      ∧ chart app'
        = match summary latest with
          | Some s => if decide (type_distribution s = ∅) then NoDataChart
                      else BarChart (type_distribution s)
          | None => NoDataChart
          end
      ∧ msg app' = msg window ∧ msg_style app' = msg_style window
      ∧ upload_btn_enabled app' = upload_btn_enabled window.
Proof.
  assert (table (store_after 3 7) ≠ []) as Hne by by_evaluation.
  split; [exact Hne|].
  exact (refresh_shows_the_store http_error_text window (store_after 3 7) Hne).
Defined.


Lemma gui_upload_without_file_witness :
  upload mean_Qc (parsed_as pump_valve) http_error_text error_page_text
    response_text_of posix_basename received_plain client_disk 1 "" window empty_store
  = (window, empty_store)
  ∧ upload mean_Qc (parsed_as pump_valve) http_error_text error_page_text
      response_text_of posix_basename received_plain client_disk 1
      "/home/user/none.csv" window empty_store
    = (mkApp
         ("✗ Error: [Errno 2] No such file or directory: "
          +:+ repr "/home/user/none.csv")
         "padding: 5px; color: #f44336; font-weight: bold;" true
         (stats_label window) (chart window) (history_table window), empty_store).
Proof.
  split.
  - exact (proj1 (gui_upload_without_file mean_Qc (parsed_as pump_valve) http_error_text
                    error_page_text response_text_of posix_basename received_plain
                    client_disk 1 "" window empty_store) eq_refl).
  - assert ("/home/user/none.csv" ≠ ""%string) as Hpath by by_evaluation.
    assert (client_disk !! "/home/user/none.csv"%string = None) as Hdisk by by_evaluation.
    exact (proj1 (proj2 (gui_upload_without_file mean_Qc (parsed_as pump_valve)
                           http_error_text error_page_text response_text_of
                           posix_basename received_plain client_disk 1
                           "/home/user/none.csv" window empty_store)) Hpath Hdisk).
Defined.

